(** * Resource discovery and tier classification of [dashboard.py]

    A shallow embedding of the discovery half of [dashboard.py]
    ([run_aws_command], the five [get_*] collectors and the head of
    [generate_html]) together with the properties its specification states
    about scoping and tier classification.

    Conventions of the embedding.
    - The JSON documents the AWS CLI prints are modelled by their schema:
      a key the source subscripts ([vpc["VpcId"]]) is a plain record field,
      a key the source reads with [.get] is an [option] field, and the
      top-level document is a dictionary ([gmap string _]) from keys to
      lists of records.
    - Python strings are [string]s of 8-bit characters; [str.lower] acts on
      the letters [A]..[Z].
    - A [for] loop over a list is a [foldl] of the loop body; the body is
      the function named [<function>_body].
    - The dictionaries of buckets built by [get_subnets] and [get_instances]
      are [gmap string (list _)]. *)

From Stdlib Require Import ZArith Ascii String.
From stdpp Require Import base option list strings gmap pretty.

Local Open Scope string_scope.
Local Open Scope Z_scope.
Local Open Scope list_scope.

(** ** Python primitives on strings and dictionaries *)

Module Py.

(** [c.lower()] for one character. *)
Definition lower_ascii (c : ascii) : ascii :=
  let n := nat_of_ascii c in
  if ((65 <=? n) && (n <=? 90))%nat then ascii_of_nat (n + 32) else c.

(** [s.lower()]. *)
Fixpoint lower (s : string) : string :=
  match s with
  | EmptyString => EmptyString
  | String c r => String (lower_ascii c) (lower r)
  end.

(** [hay.startswith(needle)]. *)
Fixpoint startswith (needle hay : string) : bool :=
  match needle, hay with
  | EmptyString, _ => true
  | String _ _, EmptyString => false
  | String a n, String b h => if Ascii.eqb a b then startswith n h else false
  end.

(** [needle in hay] on strings. *)
Fixpoint str_in (needle hay : string) : bool :=
  startswith needle hay ||
  match hay with
  | EmptyString => false
  | String _ r => str_in needle r
  end.

(** Truth value of a string: [bool(s)]. *)
Definition truthy (s : string) : bool :=
  match s with
  | EmptyString => false
  | String _ _ => true
  end.

(** [a or b] on strings. *)
Definition or_else (a b : string) : string := if truthy a then a else b.

(** Truth value of a list: [bool(l)]. *)
Definition nonempty {A} (l : list A) : bool :=
  match l with
  | [] => false
  | _ :: _ => true
  end.

(** Truth value of an integer: [bool(n)]. *)
Definition nonzero (n : Z) : bool := negb (n =? 0).

(** [x in l] for [x] a string and [l] a list of strings. *)
Definition mem (x : string) (l : list string) : bool := bool_decide (x ∈ l).

(** [x in l] for [x] the result of [d.get(k)]: [None] is in no list of
    strings. *)
Definition mem_opt (x : option string) (l : list string) : bool :=
  match x with
  | Some v => mem v l
  | None => false
  end.

(** [d.get(k, dflt)]. *)
Definition get {V} (d : gmap string V) (k : string) (dflt : V) : V :=
  default dflt (d !! k).

(** Truth value of a dictionary: [bool(d)]. *)
Definition dict_truthy {V} (d : gmap string V) : bool :=
  bool_decide (d ≠ ∅).

End Py.

(** ** The query adapter: [run_aws_command] *)

(** What [result.stdout] holds, seen through [json.loads]: nothing, a text
    [json.loads] rejects, or a text it parses to the document [d]. *)
Inductive stdout (D : Type) : Type :=
  | NoOutput
  | NotJson
  | Json (d : D).
Arguments NoOutput {D}.
Arguments NotJson {D}.
Arguments Json {D} d.

(** The exceptions [subprocess.run] raises: the [aws] executable cannot be
    started ([OSError]), or the 15 second timeout expires. *)
Inductive run_error : Type :=
  | OSError
  | TimeoutExpired.

(** What [subprocess.run(cmd, capture_output=True, text=True, timeout=15)]
    does: it raises, or it completes with a return code and an output. *)
Inductive completed (D : Type) : Type :=
  | Raised (e : run_error)
  | Exited (returncode : Z) (out : stdout D).
Arguments Raised {D} e.
Arguments Exited {D} returncode out.

(** A describe call prints a dictionary from keys to lists of records. *)
Abbreviation response A := (gmap string (list A)).

(** [run_aws_command]: [None] is Python's [None]. *)
Definition run_aws_command {A} (result : completed (response A))
  : option (response A) :=
  match result with
  | Raised _ => None                       (* except Exception *)
  | Exited returncode out =>
      if returncode =? 0 then
        match out with
        | NoOutput => Some ∅               (* ... else {} *)
        | NotJson => None                  (* json.loads raises *)
        | Json d => Some d
        end
      else None
  end.

(** [not data] for the value [run_aws_command] returned. *)
Definition no_data {A} (data : option (response A)) : bool :=
  match data with
  | None => true
  | Some d => negb (Py.dict_truthy d)
  end.

(** [data.get(key, [])], read after the [not data] test. *)
Definition records {A} (data : option (response A)) (key : string) : list A :=
  match data with
  | None => []
  | Some d => Py.get d key []
  end.

(** ** Raw inventory records *)

Record tag : Type := Tag { Key : string; Value : string }.

(** For each kind: [raw] holds the keys the source reads from one item of the
    describe call's list, [entry] is the dictionary the collector appends. *)

Module Vpc.
Record raw : Type := Raw {
  IsDefault : option bool;
  Tags : option (list tag);
  VpcId : string;
  CidrBlock : string }.
Record entry : Type := Entry { id : string; cidr : string; name : string }.
End Vpc.

Module Subnet.
Record raw : Type := Raw {
  VpcId : string;
  Tags : option (list tag);
  SubnetId : string;
  CidrBlock : string;
  AvailabilityZone : option string }.
Record entry : Type :=
  Entry { id : string; cidr : string; az : string; name : string }.
End Subnet.

Module Inst.
(** The [State] dictionary of an instance. *)
Record state_dict : Type := MkState { Name : option string }.
Record raw : Type := Raw {
  VpcId : option string;
  Tags : option (list tag);
  InstanceId : string;
  InstanceType : option string;
  State : option state_dict;
  PrivateIpAddress : option string }.
Record reservation : Type := Reservation { Instances : option (list raw) }.
Record entry : Type := Entry {
  id : string;
  type : string;
  state : string;
  private_ip : string;
  name : string }.
End Inst.

Module SecurityGroup.
Record rule : Type := Rule { FromPort : option Z }.
Record raw : Type := Raw {
  VpcId : option string;
  GroupName : option string;
  IpPermissions : option (list rule);
  GroupId : string }.
Record entry : Type :=
  Entry { id : string; name : string; ports : list string }.
End SecurityGroup.

Module Igw.
Record attachment : Type := Attachment { VpcId : option string }.
Record raw : Type := Raw {
  Attachments : option (list attachment);
  Tags : option (list tag);
  InternetGatewayId : string }.
Record entry : Type := Entry { id : string; name : string }.
End Igw.

(** The cloud endpoint as one page load sees it: the outcome of each of the
    five describe calls. *)
Record cloud : Type := Cloud {
  describe_vpcs : completed (response Vpc.raw);
  describe_subnets : completed (response Subnet.raw);
  describe_instances : completed (response Inst.reservation);
  describe_security_groups : completed (response SecurityGroup.raw);
  describe_internet_gateways : completed (response Igw.raw) }.

(** ** Tag scans *)

(** The loop
    [for tag in tags: if tag["Key"] == "Name": name = tag["Value"]]. *)
Definition name_body (name : string) (t : tag) : string :=
  if String.eqb (Key t) "Name" then Value t else name.

Definition scan_name (tags : option (list tag)) : string :=
  foldl name_body "" (default [] tags).

(** The loop of [get_subnets] and [get_instances], which also tracks
    [tier]; the state is the pair [(name, tier)]. *)
Definition name_tier_body (st : string * string) (t : tag) : string * string :=
  let '(name, tier) := st in
  let name := if String.eqb (Key t) "Name" then Value t else name in
  let tier := if String.eqb (Key t) "Tier" then Value t else tier in
  (name, tier).

Definition scan_name_tier (tier0 : string) (tags : option (list tag))
  : string * string :=
  foldl name_tier_body ("", tier0) (default [] tags).

(** ** [get_vpcs] *)

Definition get_vpcs_body (vpcs : list Vpc.entry) (vpc : Vpc.raw)
  : list Vpc.entry :=
  if default false (Vpc.IsDefault vpc) then vpcs          (* continue *)
  else
    let name := scan_name (Vpc.Tags vpc) in
    if Py.truthy name then
      vpcs ++ [Vpc.Entry (Vpc.VpcId vpc) (Vpc.CidrBlock vpc) name]
    else vpcs.

Definition get_vpcs (c : cloud) : list Vpc.entry :=
  let data := run_aws_command (describe_vpcs c) in
  if no_data data then []
  else foldl get_vpcs_body [] (records data "Vpcs").

(** ** Scope: the [vpc_ids] argument *)

(** [vpc_ids] is Python's [None] or a list of VPC identifiers. *)
Definition scope : Type := option (list string).

(** Truth value of [vpc_ids]: [None] and the empty list are false. *)
Definition scope_truthy (vpc_ids : scope) : bool :=
  match vpc_ids with
  | None => false
  | Some ids => Py.nonempty ids
  end.

(** [vpc_ids and v not in vpc_ids], for [v] read by subscript. *)
Definition out_of_scope (vpc_ids : scope) (v : string) : bool :=
  scope_truthy vpc_ids && negb (Py.mem v (default [] vpc_ids)).

(** [vpc_ids and d.get("VpcId") not in vpc_ids]. *)
Definition out_of_scope_opt (vpc_ids : scope) (v : option string) : bool :=
  scope_truthy vpc_ids && negb (Py.mem_opt v (default [] vpc_ids)).

(** ** Buckets *)

(** [if tier in buckets: buckets[tier].append(x)]. *)
Definition append_to {A} (buckets : gmap string (list A)) (tier : string)
    (x : A) : gmap string (list A) :=
  match buckets !! tier with
  | Some l => <[tier := l ++ [x]]> buckets
  | None => buckets
  end.

(** ** [get_subnets] *)

Definition no_subnets : gmap string (list Subnet.entry) :=
  <["database" := []]> (<["app" := []]> (<["public" := []]> ∅)).

Definition get_subnets_body (vpc_ids : scope)
    (subnets : gmap string (list Subnet.entry)) (subnet : Subnet.raw)
  : gmap string (list Subnet.entry) :=
  if out_of_scope vpc_ids (Subnet.VpcId subnet) then subnets   (* continue *)
  else
    let '(name, tier) := scan_name_tier "app" (Subnet.Tags subnet) in
    if negb (Py.truthy name) then subnets                      (* continue *)
    else
      let tier :=
        if Py.str_in "public" (Py.lower name) then "public"
        else if Py.str_in "db" (Py.lower name)
                || Py.str_in "database" (Py.lower name) then "database"
        else tier in
      append_to subnets tier
        (Subnet.Entry (Subnet.SubnetId subnet) (Subnet.CidrBlock subnet)
           (default "" (Subnet.AvailabilityZone subnet)) name).

Definition get_subnets (c : cloud) (vpc_ids : scope)
  : gmap string (list Subnet.entry) :=
  let data := run_aws_command (describe_subnets c) in
  if no_data data then no_subnets
  else foldl (get_subnets_body vpc_ids) no_subnets (records data "Subnets").

(** ** [get_instances] *)

Definition no_instances : gmap string (list Inst.entry) :=
  <["app" := []]> (<["web" := []]> ∅).

(** [instance.get("State", {}).get("Name", "unknown")]. *)
Definition state_of (instance : Inst.raw) : string :=
  match Inst.State instance with
  | Some st => default "unknown" (Inst.Name st)
  | None => "unknown"
  end.

Definition get_instances_body (vpc_ids : scope)
    (instances : gmap string (list Inst.entry)) (instance : Inst.raw)
  : gmap string (list Inst.entry) :=
  if out_of_scope_opt vpc_ids (Inst.VpcId instance) then instances
  else
    let '(name, tier) := scan_name_tier "web" (Inst.Tags instance) in
    let tier := if Py.str_in "app" (Py.lower name) then "app" else tier in
    append_to instances tier
      (Inst.Entry (Inst.InstanceId instance)
         (default "" (Inst.InstanceType instance))
         (state_of instance)
         (default "" (Inst.PrivateIpAddress instance))
         (Py.or_else name "(unnamed)")).

(** The outer loop body: the inner loop over one reservation. *)
Definition get_instances_reservation (vpc_ids : scope)
    (instances : gmap string (list Inst.entry))
    (reservation : Inst.reservation)
  : gmap string (list Inst.entry) :=
  foldl (get_instances_body vpc_ids) instances
    (default [] (Inst.Instances reservation)).

Definition get_instances (c : cloud) (vpc_ids : scope)
  : gmap string (list Inst.entry) :=
  let data := run_aws_command (describe_instances c) in
  if no_data data then no_instances
  else foldl (get_instances_reservation vpc_ids) no_instances
         (records data "Reservations").

(** ** [get_security_groups] *)

(** [port = rule.get("FromPort"); if port: ports.append(str(port))]. *)
Definition ports_body (ports : list string) (rule : SecurityGroup.rule)
  : list string :=
  match SecurityGroup.FromPort rule with
  | Some port => if Py.nonzero port then ports ++ [pretty port] else ports
  | None => ports
  end.

Definition get_security_groups_body (vpc_ids : scope)
    (sgs : list SecurityGroup.entry) (sg : SecurityGroup.raw)
  : list SecurityGroup.entry :=
  if out_of_scope_opt vpc_ids (SecurityGroup.VpcId sg) then sgs
  else if bool_decide (SecurityGroup.GroupName sg = Some "default") then sgs
  else
    let ports :=
      foldl ports_body [] (default [] (SecurityGroup.IpPermissions sg)) in
    sgs ++ [SecurityGroup.Entry (SecurityGroup.GroupId sg)
              (default "" (SecurityGroup.GroupName sg)) ports].

Definition get_security_groups (c : cloud) (vpc_ids : scope)
  : list SecurityGroup.entry :=
  let data := run_aws_command (describe_security_groups c) in
  if no_data data then []
  else foldl (get_security_groups_body vpc_ids) []
         (records data "SecurityGroups").

(** ** [get_internet_gateways] *)

(** [for att in attachments: vpc_id = att.get("VpcId", "")]. *)
Definition attachment_body (vpc_id : string) (att : Igw.attachment) : string :=
  default "" (Igw.VpcId att).

Definition owning_vpc (igw : Igw.raw) : string :=
  foldl attachment_body "" (default [] (Igw.Attachments igw)).

Definition get_internet_gateways_body (vpc_ids : scope)
    (igws : list Igw.entry) (igw : Igw.raw) : list Igw.entry :=
  let vpc_id := owning_vpc igw in
  if out_of_scope vpc_ids vpc_id then igws
  else
    let name := scan_name (Igw.Tags igw) in
    if Py.truthy name || Py.truthy vpc_id then
      igws ++ [Igw.Entry (Igw.InternetGatewayId igw) name]
    else igws.

Definition get_internet_gateways (c : cloud) (vpc_ids : scope)
  : list Igw.entry :=
  let data := run_aws_command (describe_internet_gateways c) in
  if no_data data then []
  else foldl (get_internet_gateways_body vpc_ids) []
         (records data "InternetGateways").

(** ** The view model built at the head of [generate_html] *)

(** The locals of [generate_html] that the page template reads, under their
    names in the source; [vpc_ids_of] is the local [vpc_ids]. *)
Record snapshot : Type := Snapshot {
  vpcs : list Vpc.entry;
  vpc_ids_of : scope;
  subnets : gmap string (list Subnet.entry);
  instances : gmap string (list Inst.entry);
  security_groups : list SecurityGroup.entry;
  igws : list Igw.entry;
  total_subnets : nat;
  total_instances : nat;
  vpc : Vpc.entry;
  igw : Igw.entry }.

(** [vpc_ids = [v["id"] for v in vpcs] if vpcs else None]. *)
Definition scope_of (vpcs : list Vpc.entry) : scope :=
  if Py.nonempty vpcs then Some (Vpc.id <$> vpcs) else None.

(** [generate_html] up to the point where it starts to format HTML: the
    values the page template reads. [d !!! k] is the subscript [d[k]]. *)
Definition generate_html (c : cloud) : snapshot :=
  let vpcs := get_vpcs c in
  let vpc_ids := scope_of vpcs in
  let subnets := get_subnets c vpc_ids in
  let instances := get_instances c vpc_ids in
  let security_groups := get_security_groups c vpc_ids in
  let igws := get_internet_gateways c vpc_ids in
  let total_subnets :=
    (length (subnets !!! "public") + length (subnets !!! "app")
     + length (subnets !!! "database"))%nat in
  let total_instances :=
    (length (instances !!! "web") + length (instances !!! "app"))%nat in
  let vpc := default (Vpc.Entry "N/A" "N/A" "No VPC") (head vpcs) in
  let igw := default (Igw.Entry "N/A" "No IGW") (head igws) in
  Snapshot vpcs vpc_ids subnets instances security_groups igws
    total_subnets total_instances vpc igw.

(** ** The fragments [generate_html] formats for the page template

    The page is one template with holes. The definitions below are the
    expressions of the source that fill the holes; the fixed text of the
    template between the holes is not reproduced. In the text of a fragment
    [dq] is the double-quote character, [nl] the end of a line and
    [spaces n] a run of [n] blanks. *)

Definition dq : string := String (ascii_of_nat 34) "".
Definition nl : string := String (ascii_of_nat 10) "".

Fixpoint spaces (n : nat) : string :=
  match n with
  | O => ""
  | S m => String " " (spaces m)
  end.

(** [sep.join(l)]. *)
Fixpoint str_join (sep : string) (l : list string) : string :=
  match l with
  | [] => ""
  | [x] => x
  | x :: r => x +:+ sep +:+ str_join sep r
  end.

(** [s[:n]]. *)
Definition str_prefix (n : nat) (s : string) : string :=
  String.substring 0 n s.

(** The card appended to [web_instances_html] and [app_instances_html]. *)
Definition instance_card (inst : Inst.entry) : string :=
  String.concat ""
    [nl; spaces 12; "<div class="; dq; "instance-card"; dq; ">";
     nl; spaces 16; "<div class="; dq; "instance-name"; dq; ">";
       Inst.name inst; "</div>";
     nl; spaces 16; "<div class="; dq; "instance-id"; dq; ">";
       str_prefix 20 (Inst.id inst); "</div>";
     nl; spaces 16; "<div class="; dq; "instance-details"; dq; ">";
     nl; spaces 20; "<span class="; dq; "badge"; dq; ">"; Inst.type inst;
       "</span>";
     nl; spaces 20; "<span class="; dq; "badge status-"; Inst.state inst; dq;
       ">"; Inst.state inst; "</span>";
     nl; spaces 16; "</div>";
     nl; spaces 16; "<div class="; dq; "instance-ip"; dq; ">IP: ";
       Py.or_else (Inst.private_ip inst) "N/A"; "</div>";
     nl; spaces 12; "</div>"].

(** The loop [for inst in bucket: html += card]. *)
Definition instance_cards (bucket : list Inst.entry) : string :=
  foldl (λ html inst, html +:+ instance_card inst) "" bucket.

(** The badge of one subnet. *)
Definition subnet_badge (s : Subnet.entry) : string :=
  String.concat ""
    ["<div class="; dq; "subnet-badge"; dq; "><div class="; dq; "name"; dq;
       ">"; Subnet.name s; "</div><div class="; dq; "cidr"; dq; ">";
       Subnet.cidr s; "</div></div>"].

(** [", ".join(sg["ports"]) or "None"]. *)
Definition ports_text (sg : SecurityGroup.entry) : string :=
  Py.or_else (str_join ", " (SecurityGroup.ports sg)) "None".

(** The card of one security group. *)
Definition security_group_card (sg : SecurityGroup.entry) : string :=
  String.concat ""
    ["<div class="; dq; "sg-card"; dq; ">";
     nl; spaces 16; "<div class="; dq; "sg-name"; dq; ">";
       SecurityGroup.name sg; "</div>";
     nl; spaces 16; "<div class="; dq; "sg-id"; dq; ">"; SecurityGroup.id sg;
       "</div>";
     nl; spaces 16; "<div class="; dq; "sg-ports"; dq; ">Ports: ";
       ports_text sg; "</div>";
     nl; spaces 12; "</div>"].

(** The text [<span class="empty">note</span>] shown for an empty list. *)
Definition empty_note (note : string) : string :=
  String.concat "" ["<span class="; dq; "empty"; dq; ">"; note; "</span>"].

(** The holes of the template, in the order of the page. *)
Module Page.
Record t : Type := Make {
  accent : string;
  mode : string;
  vpc_count : nat;
  subnet_total : nat;
  instance_total : nat;
  security_group_count : nat;
  igw_id : string;
  public_count : nat;
  public_subnets : string;
  web_count : nat;
  web_instances : string;
  app_count : nat;
  app_instances : string;
  database_count : nat;
  database_subnets : string;
  vpc_name : string;
  vpc_id : string;
  vpc_cidr : string;
  security_group_cards : string }.
End Page.

(** The second half of [generate_html]: what fills the holes, from the
    values of the first half and the global [USE_AWS]. *)
Definition html_fragments (USE_AWS : bool) (s : snapshot) : Page.t :=
  let mode := if USE_AWS then "Real AWS" else "LocalStack" in
  let web_instances_html := instance_cards (instances s !!! "web") in
  let app_instances_html := instance_cards (instances s !!! "app") in
  {| Page.accent := if USE_AWS then "#ff6b6b" else "#00d9ff";
     Page.mode := mode;
     Page.vpc_count := length (vpcs s);
     Page.subnet_total := total_subnets s;
     Page.instance_total := total_instances s;
     Page.security_group_count := length (security_groups s);
     Page.igw_id := Igw.id (igw s);
     Page.public_count := length (subnets s !!! "public");
     Page.public_subnets :=
       Py.or_else (str_join "" (subnet_badge <$> subnets s !!! "public"))
         (empty_note "No public subnets");
     Page.web_count := length (instances s !!! "web");
     Page.web_instances :=
       Py.or_else web_instances_html (empty_note "No web instances");
     Page.app_count := length (instances s !!! "app");
     Page.app_instances :=
       Py.or_else app_instances_html (empty_note "No app instances");
     Page.database_count := length (subnets s !!! "database");
     Page.database_subnets :=
       Py.or_else (str_join "" (subnet_badge <$> subnets s !!! "database"))
         (empty_note "No database subnets");
     Page.vpc_name := Vpc.name (vpc s);
     Page.vpc_id := Vpc.id (vpc s);
     Page.vpc_cidr := Vpc.cidr (vpc s);
     Page.security_group_cards :=
       Py.or_else (str_join "" (security_group_card <$> security_groups s))
         (empty_note "No security groups") |}.

(** ** The command line of [run_aws_command] *)

Definition LOCALSTACK_ENDPOINT : string := "http://localhost:4566".

(** The list [cmd] that [run_aws_command] hands to [subprocess.run]; the
    outcomes held by a [cloud] are those of the five commands
    [aws_command USE_AWS "ec2" "describe-..." None]. *)
Definition aws_command (USE_AWS : bool) (service action : string)
    (extra_args : option (list string)) : list string :=
  let cmd := ["aws"] in
  let cmd :=
    if negb USE_AWS then cmd ++ ["--endpoint-url"; LOCALSTACK_ENDPOINT]
    else cmd in
  let cmd := cmd ++ [service; action; "--output"; "json"] in
  if Py.nonempty (default [] extra_args) then cmd ++ default [] extra_args
  else cmd.

(** ** Start-up: the two checks and [main] *)

(** [check_localstack]: [curl -s <endpoint>/_localstack/health] ran within
    5 seconds and exited with status 0; any exception gives [False]. *)
Definition check_localstack {D} (result : completed D) : bool :=
  match result with
  | Raised _ => false
  | Exited returncode _ => returncode =? 0
  end.

(** [check_aws_credentials]: [aws sts get-caller-identity] ran within 10
    seconds and exited with status 0; any exception gives [False]. *)
Definition check_aws_credentials {D} (result : completed D) : bool :=
  match result with
  | Raised _ => false
  | Exited returncode _ => returncode =? 0
  end.

Module Colors.
Definition ESC : string := String (ascii_of_nat 27) "".
Definition GREEN : string := ESC +:+ "[92m".
Definition RED : string := ESC +:+ "[91m".
Definition YELLOW : string := ESC +:+ "[93m".
Definition CYAN : string := ESC +:+ "[96m".
Definition BOLD : string := ESC +:+ "[1m".
Definition END : string := ESC +:+ "[0m".
End Colors.

(** The command line of the dashboard: [--aws] and [--no-browser]. *)
Record arguments : Type := Arguments_ { aws : bool; no_browser : bool }.

(** The machine [main] runs on: the outcome of the two check commands, and
    whether [HTTPServer] can bind [localhost:8080]. *)
Record host : Type := Host {
  localstack_health : completed unit;
  caller_identity : completed unit;
  can_bind : bool }.

(** How [main] goes on after its start-up: [sys.exit(code)], the uncaught
    [OSError] of [HTTPServer] when the port cannot be bound, or the serving
    loop [server.serve_forever()] on [port], with or without the thread that
    opens the browser. *)
Inductive outcome : Type :=
  | SysExit (code : Z)
  | BindError
  | Serving (port : Z) (browser : bool).

(** What [main] has done when it exits or enters the serving loop: the value
    of the global [USE_AWS], the text printed, and the outcome. *)
Record started : Type := Started {
  USE_AWS_set : bool;
  printed : string;
  ended : outcome }.

(** [print(text)] and [print(text, end="")] on the text printed so far. *)
Definition print (text out : string) : string := out +:+ text +:+ nl.
Definition print_no_end (text out : string) : string := out +:+ text.

(** ['=' * 60]. *)
Definition rule60 : string := String.concat "" (replicate 60 "=").

Definition main (args : arguments) (h : host) : started :=
  let USE_AWS := aws args in
  let out := print (nl +:+ Colors.CYAN +:+ rule60 +:+ Colors.END) "" in
  let out :=
    print (Colors.BOLD +:+ Colors.CYAN +:+ "  3-Tier Architecture Dashboard"
           +:+ Colors.END) out in
  let out := print (Colors.CYAN +:+ rule60 +:+ Colors.END +:+ nl) out in
  let checked :=
    if USE_AWS then
      let out :=
        print ("  Mode: " +:+ Colors.YELLOW +:+ "Real AWS" +:+ Colors.END)
          out in
      let out := print_no_end "  Checking AWS credentials... " out in
      if negb (check_aws_credentials (caller_identity h)) then
        let out :=
          print (Colors.RED +:+ "NOT CONFIGURED" +:+ Colors.END) out in
        let out :=
          print (nl +:+ "  " +:+ Colors.YELLOW
                 +:+ "Configure AWS credentials first:" +:+ Colors.END)
            out in
        let out := print ("  aws configure" +:+ nl) out in
        inl out                                          (* sys.exit(1) *)
      else inr (print (Colors.GREEN +:+ "OK" +:+ Colors.END) out)
    else
      let out :=
        print ("  Mode: " +:+ Colors.CYAN +:+ "LocalStack" +:+ Colors.END)
          out in
      let out := print_no_end "  Checking LocalStack... " out in
      if negb (check_localstack (localstack_health h)) then
        let out := print (Colors.RED +:+ "NOT RUNNING" +:+ Colors.END) out in
        let out :=
          print (nl +:+ "  " +:+ Colors.YELLOW +:+ "Start LocalStack first:"
                 +:+ Colors.END) out in
        let out := print ("  docker-compose up -d" +:+ nl) out in
        inl out                                          (* sys.exit(1) *)
      else inr (print (Colors.GREEN +:+ "OK" +:+ Colors.END) out) in
  match checked with
  | inl out => Started USE_AWS out (SysExit 1)
  | inr out =>
      let port := 8080 in
      if negb (can_bind h) then Started USE_AWS out BindError
      else
        let out :=
          print (nl +:+ "  " +:+ Colors.GREEN +:+ "Dashboard running at:"
                 +:+ Colors.END) out in
        let out :=
          print ("  " +:+ Colors.BOLD +:+ "http://localhost:" +:+ pretty port
                 +:+ Colors.END +:+ nl) out in
        let out := print ("  Press Ctrl+C to stop." +:+ nl) out in
        Started USE_AWS out (Serving port (negb (no_browser args)))
  end.

(** * Specification-level vocabulary

    The definitions of this part follow the words of the specification; the
    lemmas of the next part relate each one to the loop of the source it
    describes. *)

(** "The [k] tag": the value of the tag whose key is [k]. Keys are unique in
    the provider's data; were a key repeated, the loops of the source keep
    the last occurrence. *)
Definition tag_value (k : string) (tags : option (list tag)) : option string :=
  last (Value <$> filter (λ t, Key t = k) (default [] tags)).

(** The display name a [Name] tag resolves to; empty when it does not
    resolve (tag missing, or present with an empty value). *)
Definition display_name (tags : option (list tag)) : string :=
  default "" (tag_value "Name" tags).

(** "[name] contains the case-insensitive substring [needle]", for a lower
    case [needle]: some substring of [name] is [needle] up to case. *)
Definition contains_ci (needle name : string) : Prop :=
  ∃ pre mid post, name = pre +:+ mid +:+ post ∧ Py.lower mid = needle.

(** The strings [s] ends with, longest first. *)
Fixpoint suffixes (s : string) : list string :=
  s :: match s with
       | EmptyString => []
       | String _ r => suffixes r
       end.

(** [contains_ci] as a test: at some position of [name], the next
    [length needle] characters are [needle] up to case. *)
Definition ci_in (needle name : string) : bool :=
  existsb
    (λ suf, String.eqb
              (Py.lower (String.substring 0 (String.length needle) suf)) needle)
    (suffixes name).

(** The scope lets the VPC identifier [v] through: scope is unrestricted, or
    [v] is one of the identifiers in scope. *)
Definition in_scope (vpc_ids : scope) (v : string) : Prop :=
  match vpc_ids with
  | Some (i :: ids) => v ∈ i :: ids
  | _ => True
  end.

(** The same for a record whose [VpcId] attribute may be absent. *)
Definition in_scope_opt (vpc_ids : scope) (v : option string) : Prop :=
  match vpc_ids with
  | Some (i :: ids) => ∃ w, v = Some w ∧ w ∈ i :: ids
  | _ => True
  end.

#[global] Instance in_scope_dec vpc_ids v : Decision (in_scope vpc_ids v).
Proof. destruct vpc_ids as [[|i ids]|]; simpl; apply _. Defined.

#[global] Instance in_scope_opt_dec vpc_ids v :
  Decision (in_scope_opt vpc_ids v).
Proof.
  destruct vpc_ids as [[|i ids]|]; simpl; try apply _.
  destruct v as [w|].
  - destruct (decide (w ∈ i :: ids)) as [H|H].
    + left. by exists w.
    + right. intros (w' & [= <-] & Hw). done.
  - right. intros (w' & [=] & _).
Defined.

(** The records each describe call returned (none when it failed). *)
Definition vpc_inventory (c : cloud) : list Vpc.raw :=
  records (run_aws_command (describe_vpcs c)) "Vpcs".
Definition subnet_inventory (c : cloud) : list Subnet.raw :=
  records (run_aws_command (describe_subnets c)) "Subnets".
Definition reservation_inventory (c : cloud) : list Inst.reservation :=
  records (run_aws_command (describe_instances c)) "Reservations".
Definition instance_inventory (c : cloud) : list Inst.raw :=
  r ← reservation_inventory c; default [] (Inst.Instances r).
Definition security_group_inventory (c : cloud) : list SecurityGroup.raw :=
  records (run_aws_command (describe_security_groups c)) "SecurityGroups".
Definition gateway_inventory (c : cloud) : list Igw.raw :=
  records (run_aws_command (describe_internet_gateways c)) "InternetGateways".



(** *** VPCs *)

Definition vpc_entry (v : Vpc.raw) : Vpc.entry :=
  Vpc.Entry (Vpc.VpcId v) (Vpc.CidrBlock v) (display_name (Vpc.Tags v)).

(** A VPC participates in scoping: it is not the default VPC and its name
    resolves. *)
Definition scoping_vpc (v : Vpc.raw) : Prop :=
  Vpc.IsDefault v ≠ Some true ∧ display_name (Vpc.Tags v) ≠ "".

#[global] Instance scoping_vpc_dec v : Decision (scoping_vpc v).
Proof. unfold scoping_vpc. apply _. Defined.

(** *** Subnets *)

Definition subnet_tiers : list string := ["public"; "app"; "database"].

(** The ordered tier rule for subnets. *)
Definition subnet_tier_rule (s : Subnet.raw) : string :=
  let name := display_name (Subnet.Tags s) in
  if ci_in "public" name then "public"
  else if ci_in "db" name || ci_in "database" name then "database"
  else default "app" (tag_value "Tier" (Subnet.Tags s)).

Definition subnet_entry (s : Subnet.raw) : Subnet.entry :=
  Subnet.Entry (Subnet.SubnetId s) (Subnet.CidrBlock s)
    (default "" (Subnet.AvailabilityZone s)) (display_name (Subnet.Tags s)).

(** *** Instances *)

Definition instance_tiers : list string := ["web"; "app"].

Definition placeholder : string := "(unnamed)".

(** The ordered tier rule for instances. *)
Definition instance_tier_rule (x : Inst.raw) : string :=
  if ci_in "app" (display_name (Inst.Tags x)) then "app"
  else default "web" (tag_value "Tier" (Inst.Tags x)).

Definition instance_entry (x : Inst.raw) : Inst.entry :=
  Inst.Entry (Inst.InstanceId x) (default "" (Inst.InstanceType x))
    (default "unknown" (Inst.State x ≫= Inst.Name))
    (default "" (Inst.PrivateIpAddress x))
    (if decide (display_name (Inst.Tags x) = "") then placeholder
     else display_name (Inst.Tags x)).

(** *** Security groups *)

(** The port list as the specification words it: the starting port of every
    rule that carries one. *)
Definition explicit_ports (rules : list SecurityGroup.rule) : list string :=
  pretty <$> omap SecurityGroup.FromPort rules.

(** The port list the source builds: the starting port of every rule that
    carries one other than 0. *)
Definition open_ports (rules : list SecurityGroup.rule) : list string :=
  pretty <$> filter (λ p : Z, p ≠ 0) (omap SecurityGroup.FromPort rules).

Definition security_group_entry (g : SecurityGroup.raw) : SecurityGroup.entry :=
  SecurityGroup.Entry (SecurityGroup.GroupId g)
    (default "" (SecurityGroup.GroupName g))
    (open_ports (default [] (SecurityGroup.IpPermissions g))).

(** *** Internet gateways *)

(** The owning VPC: the VPC of the last attachment record, empty when there
    is no record or the last one names no VPC. *)
Definition last_attachment_vpc (g : Igw.raw) : string :=
  default "" (last (default [] (Igw.Attachments g)) ≫= Igw.VpcId).

Definition gateway_entry (g : Igw.raw) : Igw.entry :=
  Igw.Entry (Igw.InternetGatewayId g) (display_name (Igw.Tags g)).

(** *** Snapshots *)

(** Nothing of the four filtered kinds is rendered. *)
Definition renders_nothing (s : snapshot) : Prop :=
  (∀ t, subnets s !!! t = []) ∧ (∀ t, instances s !!! t = [])
  ∧ security_groups s = [] ∧ igws s = [].

(** * Sample inventories

    Concrete records and endpoints on which the statements below are
    exercised. *)

(** A describe call that succeeds and prints [{key: items}]. *)
Definition prints {A} (key : string) (items : list A)
  : completed (response A) :=
  Exited 0 (Json {[ key := items ]}).

(** A subnet tagged [Tier=app] and named [db-subnet-1], in [vpc-x]. *)
Definition db_subnet : Subnet.raw :=
  Subnet.Raw "vpc-x" (Some [Tag "Tier" "app"; Tag "Name" "db-subnet-1"])
    "subnet-1" "10.0.3.0/24" (Some "us-east-1a").

(** An endpoint whose VPC call fails and that reports [db_subnet]. *)
Definition db_cloud : cloud :=
  Cloud (Raised OSError) (prints "Subnets" [db_subnet])
    (prints "Reservations" []) (prints "SecurityGroups" [])
    (prints "InternetGateways" []).

(** An endpoint whose VPC inventory holds the default VPC and an unnamed
    one, and that reports [db_subnet]. *)
Definition unnamed_vpcs_cloud : cloud :=
  Cloud
    (prints "Vpcs"
       [Vpc.Raw (Some true) (Some [Tag "Name" "default-vpc"]) "vpc-0"
          "172.31.0.0/16";
        Vpc.Raw (Some false) None "vpc-1" "10.0.0.0/16"])
    (prints "Subnets" [db_subnet])
    (prints "Reservations" []) (prints "SecurityGroups" [])
    (prints "InternetGateways" []).

(** A named, non-default VPC. *)
Definition main_vpc : Vpc.raw :=
  Vpc.Raw (Some false) (Some [Tag "Name" "main-vpc"]) "vpc-x" "10.0.0.0/16".


(** A gateway named [main-igw] and attached to [vpc-2]. *)
Definition named_gateway : Igw.raw :=
  Igw.Raw (Some [Igw.Attachment (Some "vpc-2")])
    (Some [Tag "Name" "main-igw"]) "igw-1".

(** An untagged gateway attached to [vpc-x]. *)
Definition untagged_gateway : Igw.raw :=
  Igw.Raw (Some [Igw.Attachment (Some "vpc-a"); Igw.Attachment (Some "vpc-x")])
    None "igw-2".

(** An endpoint whose only named VPC is [vpc-x] and that reports both
    gateways. *)
Definition gateway_cloud : cloud :=
  Cloud (prints "Vpcs" [main_vpc]) (prints "Subnets" [])
    (prints "Reservations" []) (prints "SecurityGroups" [])
    (prints "InternetGateways" [named_gateway; untagged_gateway]).

(** A named subnet whose [Tier] tag is [internet]. *)
Definition internet_subnet : Subnet.raw :=
  Subnet.Raw "vpc-x" (Some [Tag "Name" "edge-1"; Tag "Tier" "internet"])
    "subnet-2" "10.0.9.0/24" None.

(** A subnet with a [Tier] tag and no [Name] tag. *)
Definition unnamed_subnet : Subnet.raw :=
  Subnet.Raw "vpc-x" (Some [Tag "Tier" "public"]) "subnet-3" "10.0.1.0/24"
    None.

(** A named instance whose [Tier] tag is [database]. *)
Definition database_instance : Inst.raw :=
  Inst.Raw (Some "vpc-x") (Some [Tag "Name" "pg-1"; Tag "Tier" "database"])
    "i-1" (Some "t3.micro") (Some (Inst.MkState (Some "running")))
    (Some "10.0.3.10").

(** An instance with no tag at all, in [vpc-x]. *)
Definition untagged_instance : Inst.raw :=
  Inst.Raw (Some "vpc-x") None "i-2" (Some "t3.micro")
    (Some (Inst.MkState (Some "running"))) (Some "10.0.2.10").

(** A tagged instance that carries no [VpcId]. *)
Definition terminated_instance : Inst.raw :=
  Inst.Raw None (Some [Tag "Name" "web-old"; Tag "Tier" "web"]) "i-3"
    (Some "t3.micro") (Some (Inst.MkState (Some "terminated"))) None.

(** An endpoint that reports the given subnets and instances (the latter in
    one reservation); its VPC inventory is [vpc_list]. *)
Definition inventory_cloud (vpc_list : list Vpc.raw)
    (subnet_list : list Subnet.raw) (instance_list : list Inst.raw) : cloud :=
  Cloud (prints "Vpcs" vpc_list) (prints "Subnets" subnet_list)
    (prints "Reservations" [Inst.Reservation (Some instance_list)])
    (prints "SecurityGroups" []) (prints "InternetGateways" []).

(** A group with a rule from port 443, a rule from port 0 and a rule for
    all traffic. *)
Definition web_group : SecurityGroup.raw :=
  SecurityGroup.Raw (Some "vpc-x") (Some "web-sg")
    (Some [SecurityGroup.Rule (Some 443); SecurityGroup.Rule (Some 0);
           SecurityGroup.Rule None]) "sg-1".

(** A group named [Default], with a capital. *)
Definition capital_default_group : SecurityGroup.raw :=
  SecurityGroup.Raw (Some "vpc-x") (Some "Default") None "sg-2".

(** An endpoint that reports the given security groups and no VPC. *)
Definition group_cloud (groups : list SecurityGroup.raw) : cloud :=
  Cloud (prints "Vpcs" []) (prints "Subnets" []) (prints "Reservations" [])
    (prints "SecurityGroups" groups) (prints "InternetGateways" []).

(** The default VPC, which carries a name. *)
Definition default_vpc : Vpc.raw :=
  Vpc.Raw (Some true) (Some [Tag "Name" "default-vpc"]) "vpc-0"
    "172.31.0.0/16".

(** A describe call succeeded and holds no record under [key]: it printed
    nothing, or a document in which [key] is missing or bound to the empty
    list. *)
Definition answers_nothing {A} (r : completed (response A)) (key : string)
  : Prop :=
  ∃ out, r = Exited 0 out
         ∧ match out with
           | NoOutput => True
           | NotJson => False
           | Json d => d !! key = None ∨ d !! key = Some []
           end.

(** An instance of [vpc-x] named [api-1], with no [Tier] tag. *)
Definition api_instance : Inst.raw :=
  Inst.Raw (Some "vpc-x") (Some [Tag "Name" "api-1"]) "i-4" (Some "t3.small")
    None None.

(** An endpoint reporting [untagged_instance] and [api_instance] in one
    reservation. *)
Definition one_reservation_cloud : cloud :=
  Cloud (prints "Vpcs" []) (prints "Subnets" [])
    (prints "Reservations"
       [Inst.Reservation (Some [untagged_instance; api_instance])])
    (prints "SecurityGroups" []) (prints "InternetGateways" []).

(** The same two instances in two reservations, with a reservation that has
    no [Instances] key between them. *)
Definition split_reservations_cloud : cloud :=
  Cloud (prints "Vpcs" []) (prints "Subnets" [])
    (prints "Reservations"
       [Inst.Reservation (Some [untagged_instance]); Inst.Reservation None;
        Inst.Reservation (Some [api_instance])])
    (prints "SecurityGroups" []) (prints "InternetGateways" []).

(** An endpoint whose subnet call prints a document without the [Subnets]
    key. *)
Definition keyless_cloud : cloud :=
  Cloud (prints "Vpcs" []) (prints "NextToken" []) (prints "Reservations" [])
    (prints "SecurityGroups" []) (prints "InternetGateways" []).


(** Two named subnets of [vpc-x] that the rule files under [app]. *)
Definition app_subnet_a : Subnet.raw :=
  Subnet.Raw "vpc-x" (Some [Tag "Name" "private-1"]) "subnet-7"
    "10.0.7.0/24" None.
Definition app_subnet_b : Subnet.raw :=
  Subnet.Raw "vpc-x" (Some [Tag "Name" "backend-2"; Tag "Tier" "app"])
    "subnet-8" "10.0.8.0/24" (Some "us-east-1b").

(** A machine on which LocalStack answers and AWS credentials are missing. *)
Definition localstack_host : host :=
  Host (Exited 0 NoOutput) (Exited 253 NoOutput) true.

(** An instance named [WebApp-1] and tagged [Tier=database]. *)
Definition webapp_instance : Inst.raw :=
  Inst.Raw (Some "vpc-x") (Some [Tag "Tier" "database"; Tag "Name" "WebApp-1"])
    "i-5" None None None.

(** * Facts about the primitives *)

Section strings.

Lemma startswith_spec needle hay :
  Py.startswith needle hay = true ↔ ∃ post, hay = needle +:+ post.
Proof.
  revert hay. induction needle as [|a n IH]; intros hay; simpl.
  - split; [intros _; by exists hay | done].
  - destruct hay as [|b h].
    + split; [done | intros [post Hp]; discriminate Hp].
    + destruct (Ascii.eqb_spec a b) as [->|Hab].
      * rewrite IH. split; intros [post Hp]; exists post.
        -- by rewrite Hp.
        -- by injection Hp.
      * split; [done | intros [post Hp]; injection Hp; congruence].
Qed.

Lemma str_in_spec needle hay :
  Py.str_in needle hay = true ↔ ∃ pre post, hay = pre +:+ needle +:+ post.
Proof.
  induction hay as [|b h IH]; simpl; rewrite orb_true_iff, startswith_spec.
  - split.
    + intros [[post Hp]|?]; [|done]. by exists "", post.
    + intros (pre & post & Hp). left. destruct pre; [by exists post | done].
  - rewrite IH. split.
    + intros [[post Hp]|(pre & post & Hp)].
      * by exists "", post.
      * exists (String b pre), post. simpl. by rewrite Hp.
    + intros (pre & post & Hp). destruct pre as [|a pre]; simpl in Hp.
      * left. by exists post.
      * right. exists pre, post. by injection Hp.
Qed.

Lemma lower_app a b : Py.lower (a +:+ b) = Py.lower a +:+ Py.lower b.
Proof. induction a as [|x a IH]; simpl; [done | by rewrite IH]. Qed.

Lemma lower_length s : String.length (Py.lower s) = String.length s.
Proof. induction s as [|x s IH]; simpl; [done | by rewrite IH]. Qed.

Lemma lower_split s a b :
  Py.lower s = a +:+ b →
  ∃ a' b', s = a' +:+ b' ∧ Py.lower a' = a ∧ Py.lower b' = b.
Proof.
  revert s. induction a as [|x a IH]; intros s Hs; simpl in Hs.
  - by exists "", s.
  - destruct s as [|y s]; [done|]. simpl in Hs. injection Hs as Hx Hs.
    destruct (IH _ Hs) as (a' & b' & -> & Ha & Hb).
    exists (String y a'), b'. simpl. by rewrite Hx, Ha.
Qed.

(** [needle in name.lower()] decides [contains_ci needle name]. *)
Lemma str_in_lower needle name :
  Py.str_in needle (Py.lower name) = true ↔ contains_ci needle name.
Proof.
  rewrite str_in_spec. split.
  - intros (pre & post & Hs).
    destruct (lower_split _ _ _ Hs) as (pre' & rest & -> & Hpre & Hrest).
    destruct (lower_split _ _ _ Hrest) as (mid & post' & -> & Hmid & Hpost).
    by exists pre', mid, post'.
  - intros (pre & mid & post & -> & Hmid).
    exists (Py.lower pre), (Py.lower post).
    by rewrite !lower_app, Hmid.
Qed.

Lemma elem_of_suffixes suf s : suf ∈ suffixes s ↔ ∃ pre, s = pre +:+ suf.
Proof.
  induction s as [|c r IH]; simpl.
  - rewrite list_elem_of_singleton. split.
    + intros ->. by exists "".
    + intros [[|??] Hp]; simpl in Hp; [done | discriminate Hp].
  - rewrite elem_of_cons, IH. split.
    + intros [->|[pre ->]]; [by exists "" | by exists (String c pre)].
    + intros [[|a pre] Hp]; simpl in Hp; [by left|].
      right. exists pre. by injection Hp.
Qed.

Lemma substring_prefix k s : ∃ post, s = String.substring 0 k s +:+ post.
Proof.
  revert s. induction k as [|k IH]; intros [|c r]; simpl;
    try by (eexists; reflexivity).
  destruct (IH r) as [post Hp]. exists post.
  change (String c r = String c (String.substring 0 k r +:+ post)).
  by rewrite <- Hp.
Qed.

Lemma substring_app a b : String.substring 0 (String.length a) (a +:+ b) = a.
Proof.
  induction a as [|c a IH]; simpl; [by destruct b | by rewrite IH].
Qed.

(** The test [ci_in] decides [contains_ci] too. *)
Lemma ci_in_spec needle name :
  ci_in needle name = true ↔ contains_ci needle name.
Proof.
  unfold ci_in. rewrite existsb_exists. split.
  - intros (suf & Hin & Heq).
    apply list_elem_of_In, elem_of_suffixes in Hin as [pre ->].
    apply String.eqb_eq in Heq.
    destruct (substring_prefix (String.length needle) suf) as [post Hp].
    exists pre, (String.substring 0 (String.length needle) suf), post.
    by rewrite <- Hp.
  - intros (pre & mid & post & -> & Hmid).
    exists (mid +:+ post). split.
    + apply list_elem_of_In, elem_of_suffixes. by exists pre.
    + apply String.eqb_eq.
      by rewrite <- Hmid, lower_length, substring_app.
Qed.

(** The source's test and the specification's agree. *)
Lemma str_in_lower_ci needle name :
  Py.str_in needle (Py.lower name) = ci_in needle name.
Proof.
  apply eq_true_iff_eq. by rewrite str_in_lower, ci_in_spec.
Qed.

Lemma truthy_spec s : Py.truthy s = true ↔ s ≠ "".
Proof. by destruct s. Qed.

Lemma nonzero_spec n : Py.nonzero n = true ↔ n ≠ 0.
Proof. unfold Py.nonzero. by rewrite negb_true_iff, Z.eqb_neq. Qed.

End strings.

(** * Facts about the loops *)

Section loops.

Context {X E : Type}.

(** A loop that appends [f x] for the [x] satisfying [P] collects the
    filtered list. *)
Lemma foldl_collect (P : X → Prop) `{!∀ x, Decision (P x)} (f : X → E)
    (body : list E → X → list E) :
  (∀ acc x, body acc x = if decide (P x) then acc ++ [f x] else acc) →
  ∀ l acc, foldl body acc l = acc ++ (f <$> filter P l).
Proof.
  intros Hbody. induction l as [|x l IH]; intros acc; simpl.
  - by rewrite app_nil_r.
  - rewrite IH, Hbody, filter_cons. destruct (decide (P x)); [|done].
    by rewrite <- app_assoc.
Qed.

(** A loop that files [f x] under [tier x] for the [x] satisfying [P]
    extends each existing bucket by the filtered list, and creates none. *)
Lemma foldl_buckets (P : X → Prop) `{!∀ x, Decision (P x)} (tier : X → string)
    (f : X → E) (body : gmap string (list E) → X → gmap string (list E)) :
  (∀ b x, body b x = if decide (P x) then append_to b (tier x) (f x) else b) →
  ∀ l b t,
    foldl body b l !! t
    = (λ es, es ++ (f <$> filter (λ x, P x ∧ tier x = t) l)) <$> (b !! t).
Proof.
  intros Hbody. induction l as [|x l IH]; intros b t; simpl.
  - destruct (b !! t); simpl; [by rewrite app_nil_r | done].
  - rewrite IH, Hbody, filter_cons. destruct (decide (P x)) as [HP|HP].
    + unfold append_to. destruct (decide (tier x = t)) as [<-|Hne].
      * rewrite decide_True by done.
        destruct (b !! tier x) as [es|] eqn:Hb.
        -- rewrite lookup_insert_eq. simpl. by rewrite <- app_assoc.
        -- by rewrite Hb.
      * rewrite decide_False by tauto.
        destruct (b !! tier x); [by rewrite lookup_insert_ne | done].
    + by rewrite decide_False by tauto.
Qed.

(** Removing a record the filter rejects changes nothing. *)
Lemma filter_remove (P : X → Prop) `{!∀ x, Decision (P x)} l1 x l2 :
  ¬ P x → filter P (l1 ++ x :: l2) = filter P (l1 ++ l2).
Proof.
  intros HP. by rewrite !filter_app, filter_cons, decide_False.
Qed.

End loops.

Section scans.

Lemma records_no_data {A} (data : option (response A)) key :
  no_data data = true → records data key = [].
Proof.
  destruct data as [d|]; simpl; [|done].
  unfold Py.dict_truthy, Py.get. rewrite negb_true_iff, bool_decide_eq_false.
  intros Hd. apply dec_stable in Hd as ->. by rewrite lookup_empty.
Qed.

Lemma foldl_last_tag k n l :
  foldl (λ n t, if String.eqb (Key t) k then Value t else n) n l
  = default n (last (Value <$> filter (λ t, Key t = k) l)).
Proof.
  revert n. induction l as [|t l IH]; intros n; simpl; [done|].
  rewrite IH, filter_cons.
  destruct (String.eqb_spec (Key t) k) as [Hk|Hk].
  - rewrite decide_True by done. rewrite fmap_cons, last_cons.
    by destruct (last _).
  - by rewrite decide_False.
Qed.

Lemma scan_name_spec tags : scan_name tags = display_name tags.
Proof. apply foldl_last_tag. Qed.

Lemma foldl_name_tier n t l :
  foldl name_tier_body (n, t) l
  = (foldl (λ n t, if String.eqb (Key t) "Name" then Value t else n) n l,
     foldl (λ n t, if String.eqb (Key t) "Tier" then Value t else n) t l).
Proof.
  revert n t. induction l as [|x l IH]; intros n t; simpl; [done|].
  apply IH.
Qed.

Lemma scan_name_tier_spec tier0 tags :
  scan_name_tier tier0 tags
  = (display_name tags, default tier0 (tag_value "Tier" tags)).
Proof.
  unfold scan_name_tier. by rewrite foldl_name_tier, !foldl_last_tag.
Qed.

Lemma out_of_scope_spec vpc_ids v :
  out_of_scope vpc_ids v = false ↔ in_scope vpc_ids v.
Proof.
  unfold out_of_scope, Py.mem.
  destruct vpc_ids as [[|i ids]|]; simpl; [done| |done].
  by rewrite negb_false_iff, bool_decide_eq_true.
Qed.

Lemma out_of_scope_opt_spec vpc_ids v :
  out_of_scope_opt vpc_ids v = false ↔ in_scope_opt vpc_ids v.
Proof.
  unfold out_of_scope_opt, Py.mem_opt, Py.mem.
  destruct vpc_ids as [[|i ids]|]; simpl; [done| |done].
  destruct v as [w|]; simpl.
  - rewrite negb_false_iff, bool_decide_eq_true. split.
    + intros Hw. by exists w.
    + by intros (w' & [= <-] & Hw).
  - split; [done | by intros (w' & [=] & _)].
Qed.

Lemma foldl_ports acc rules :
  foldl ports_body acc rules = acc ++ open_ports rules.
Proof.
  unfold open_ports. revert acc.
  induction rules as [|[[p|]] rules IH]; intros acc; simpl.
  - by rewrite app_nil_r.
  - rewrite IH. unfold ports_body. simpl. rewrite filter_cons.
    destruct (Py.nonzero p) eqn:Hp.
    + apply nonzero_spec in Hp. rewrite decide_True by done.
      by rewrite <- app_assoc.
    + rewrite decide_False; [done|]. intros Hne.
      apply nonzero_spec in Hne. congruence.
  - by rewrite IH.
Qed.

Lemma foldl_attachment acc l :
  foldl attachment_body acc l
  = match last l with
    | Some a => default "" (Igw.VpcId a)
    | None => acc
    end.
Proof.
  revert acc. induction l as [|a l IH]; intros acc; simpl; [done|].
  rewrite IH, last_cons. by destruct (last l).
Qed.

Lemma owning_vpc_spec g : owning_vpc g = last_attachment_vpc g.
Proof.
  unfold owning_vpc, last_attachment_vpc. rewrite foldl_attachment.
  by destruct (last _).
Qed.

End scans.

(** * What each collector returns

    Each collector is a filter of its inventory followed by a map to
    entries. *)

Section collectors.

Lemma get_vpcs_body_spec acc v :
  get_vpcs_body acc v
  = if decide (scoping_vpc v) then acc ++ [vpc_entry v] else acc.
Proof.
  unfold get_vpcs_body, vpc_entry. rewrite scan_name_spec.
  destruct (decide (scoping_vpc v)) as [[Hd Hn]|Hno].
  - apply truthy_spec in Hn. rewrite Hn.
    by destruct (Vpc.IsDefault v) as [[|]|].
  - destruct (Vpc.IsDefault v) as [[|]|] eqn:Hd; simpl; [done| |];
      (destruct (Py.truthy _) eqn:Hn; [|done]);
      exfalso; apply Hno; (split; [by rewrite Hd | by apply truthy_spec]).
Qed.

Lemma get_vpcs_spec c :
  get_vpcs c = vpc_entry <$> filter scoping_vpc (vpc_inventory c).
Proof.
  unfold get_vpcs, vpc_inventory.
  destruct (no_data _) eqn:Hd.
  - by rewrite (records_no_data _ _ Hd).
  - by rewrite (foldl_collect scoping_vpc vpc_entry _ get_vpcs_body_spec).
Qed.

Lemma get_subnets_body_spec vpc_ids b s :
  get_subnets_body vpc_ids b s
  = if decide (in_scope vpc_ids (Subnet.VpcId s)
               ∧ display_name (Subnet.Tags s) ≠ "")
    then append_to b (subnet_tier_rule s) (subnet_entry s) else b.
Proof.
  unfold get_subnets_body, subnet_tier_rule, subnet_entry.
  rewrite scan_name_tier_spec, !str_in_lower_ci.
  destruct (out_of_scope _ _) eqn:Hs.
  - rewrite decide_False; [done|]. intros [Hin _].
    apply out_of_scope_spec in Hin. congruence.
  - apply out_of_scope_spec in Hs. destruct (Py.truthy _) eqn:Hn; simpl.
    + apply truthy_spec in Hn. by rewrite decide_True.
    + rewrite decide_False; [done|]. intros [_ Hne].
      apply truthy_spec in Hne. congruence.
Qed.

Lemma no_subnets_lookup t :
  no_subnets !! t = if decide (t ∈ subnet_tiers) then Some [] else None.
Proof.
  unfold no_subnets, subnet_tiers.
  destruct (decide (t = "database")) as [->|?]; [done|].
  destruct (decide (t = "app")) as [->|?]; [done|].
  destruct (decide (t = "public")) as [->|?]; [done|].
  rewrite !lookup_insert_ne, lookup_empty by done.
  rewrite decide_False; [done|].
  rewrite !elem_of_cons, elem_of_nil. tauto.
Qed.

Lemma get_subnets_fold c vpc_ids :
  get_subnets c vpc_ids
  = foldl (get_subnets_body vpc_ids) no_subnets (subnet_inventory c).
Proof.
  unfold get_subnets, subnet_inventory. destruct (no_data _) eqn:Hd; [|done].
  by rewrite (records_no_data _ _ Hd).
Qed.

Lemma get_subnets_spec c vpc_ids t :
  get_subnets c vpc_ids !! t
  = if decide (t ∈ subnet_tiers) then
      Some (subnet_entry <$>
              filter (λ s, (in_scope vpc_ids (Subnet.VpcId s)
                            ∧ display_name (Subnet.Tags s) ≠ "")
                           ∧ subnet_tier_rule s = t)
                (subnet_inventory c))
    else None.
Proof.
  rewrite get_subnets_fold.
  rewrite (foldl_buckets _ subnet_tier_rule subnet_entry _
             (get_subnets_body_spec vpc_ids)).
  rewrite no_subnets_lookup. by destruct (decide (t ∈ subnet_tiers)).
Qed.

Lemma get_instances_body_spec vpc_ids b x :
  get_instances_body vpc_ids b x
  = if decide (in_scope_opt vpc_ids (Inst.VpcId x))
    then append_to b (instance_tier_rule x) (instance_entry x) else b.
Proof.
  unfold get_instances_body, instance_tier_rule, instance_entry, state_of,
    Py.or_else, placeholder.
  rewrite scan_name_tier_spec, !str_in_lower_ci.
  destruct (out_of_scope_opt _ _) eqn:Hs.
  - rewrite decide_False; [done|]. intros Hin.
    apply out_of_scope_opt_spec in Hin. congruence.
  - apply out_of_scope_opt_spec in Hs. rewrite decide_True by done.
    do 2 f_equal.
    + by destruct (Inst.State x).
    + by destruct (display_name (Inst.Tags x)).
Qed.

Lemma no_instances_lookup t :
  no_instances !! t = if decide (t ∈ instance_tiers) then Some [] else None.
Proof.
  unfold no_instances, instance_tiers.
  destruct (decide (t = "app")) as [->|?]; [done|].
  destruct (decide (t = "web")) as [->|?]; [done|].
  rewrite !lookup_insert_ne, lookup_empty by done.
  rewrite decide_False; [done|].
  rewrite !elem_of_cons, elem_of_nil. tauto.
Qed.

Lemma get_instances_fold c vpc_ids :
  get_instances c vpc_ids
  = foldl (get_instances_body vpc_ids) no_instances (instance_inventory c).
Proof.
  unfold get_instances, instance_inventory, reservation_inventory.
  destruct (no_data _) eqn:Hd.
  - by rewrite (records_no_data _ _ Hd).
  - generalize no_instances as b.
    induction (records _ _) as [|r rs IH]; intros b; simpl; [done|].
    by rewrite foldl_app, IH.
Qed.

Lemma get_instances_spec c vpc_ids t :
  get_instances c vpc_ids !! t
  = if decide (t ∈ instance_tiers) then
      Some (instance_entry <$>
              filter (λ x, in_scope_opt vpc_ids (Inst.VpcId x)
                           ∧ instance_tier_rule x = t)
                (instance_inventory c))
    else None.
Proof.
  rewrite get_instances_fold.
  rewrite (foldl_buckets _ instance_tier_rule instance_entry _
             (get_instances_body_spec vpc_ids)).
  rewrite no_instances_lookup. by destruct (decide (t ∈ instance_tiers)).
Qed.

Lemma get_security_groups_body_spec vpc_ids acc g :
  get_security_groups_body vpc_ids acc g
  = if decide (in_scope_opt vpc_ids (SecurityGroup.VpcId g)
               ∧ SecurityGroup.GroupName g ≠ Some "default")
    then acc ++ [security_group_entry g] else acc.
Proof.
  unfold get_security_groups_body, security_group_entry.
  rewrite foldl_ports. simpl.
  destruct (out_of_scope_opt _ _) eqn:Hs.
  - rewrite decide_False; [done|]. intros [Hin _].
    apply out_of_scope_opt_spec in Hin. congruence.
  - apply out_of_scope_opt_spec in Hs. case_bool_decide as Hn.
    + rewrite decide_False; [done | by intros [_ ?]].
    + by rewrite decide_True.
Qed.

Lemma get_security_groups_spec c vpc_ids :
  get_security_groups c vpc_ids
  = security_group_entry <$>
      filter (λ g, in_scope_opt vpc_ids (SecurityGroup.VpcId g)
                   ∧ SecurityGroup.GroupName g ≠ Some "default")
        (security_group_inventory c).
Proof.
  unfold get_security_groups, security_group_inventory.
  destruct (no_data _) eqn:Hd.
  - by rewrite (records_no_data _ _ Hd).
  - by rewrite (foldl_collect _ security_group_entry _
                  (get_security_groups_body_spec vpc_ids)).
Qed.

Lemma get_internet_gateways_body_spec vpc_ids acc g :
  get_internet_gateways_body vpc_ids acc g
  = if decide (in_scope vpc_ids (last_attachment_vpc g)
               ∧ (display_name (Igw.Tags g) ≠ ""
                  ∨ last_attachment_vpc g ≠ ""))
    then acc ++ [gateway_entry g] else acc.
Proof.
  unfold get_internet_gateways_body, gateway_entry.
  rewrite scan_name_spec, owning_vpc_spec.
  destruct (out_of_scope _ _) eqn:Hs.
  - rewrite decide_False; [done|]. intros [Hin _].
    apply out_of_scope_spec in Hin. congruence.
  - apply out_of_scope_spec in Hs. destruct (_ || _) eqn:Hn.
    + rewrite decide_True; [done|]. split; [done|].
      apply orb_true_iff in Hn. by rewrite <- !truthy_spec.
    + rewrite decide_False; [done|]. intros [_ Hor].
      rewrite <- !truthy_spec, <- orb_true_iff in Hor. congruence.
Qed.

Lemma get_internet_gateways_spec c vpc_ids :
  get_internet_gateways c vpc_ids
  = gateway_entry <$>
      filter (λ g, in_scope vpc_ids (last_attachment_vpc g)
                   ∧ (display_name (Igw.Tags g) ≠ ""
                      ∨ last_attachment_vpc g ≠ ""))
        (gateway_inventory c).
Proof.
  unfold get_internet_gateways, gateway_inventory.
  destruct (no_data _) eqn:Hd.
  - by rewrite (records_no_data _ _ Hd).
  - by rewrite (foldl_collect _ gateway_entry _
                  (get_internet_gateways_body_spec vpc_ids)).
Qed.

End collectors.

(** * The claims of the specification *)

(** C1. Subnet tiers. Every bucket of [get_subnets] holds, in inventory
    order, the entries of exactly the subnets that pass the scope, whose name
    resolves and whose tier by the ordered rule is the bucket's key; the rule
    gives [public] when the name contains "public" in any case, else
    [database] when it contains "db" or "database", else the [Tier] tag's
    value, [app] when there is none. In particular, with the VPC inventory
    empty or unavailable, a subnet tagged [Tier=app] and named
    [db-subnet-1] is in the [database] bucket. *)
Theorem subnet_tier_assignment c vpc_ids :
  (∀ t, get_subnets c vpc_ids !! t
        = if decide (t ∈ subnet_tiers) then
            Some (subnet_entry <$>
                    filter (λ s, (in_scope vpc_ids (Subnet.VpcId s)
                                  ∧ display_name (Subnet.Tags s) ≠ "")
                                 ∧ subnet_tier_rule s = t)
                      (subnet_inventory c))
          else None)
  ∧ (∀ s, let name := display_name (Subnet.Tags s) in
          (contains_ci "public" name → subnet_tier_rule s = "public")
          ∧ (¬ contains_ci "public" name →
             contains_ci "db" name ∨ contains_ci "database" name →
             subnet_tier_rule s = "database")
          ∧ (¬ contains_ci "public" name → ¬ contains_ci "db" name →
             ¬ contains_ci "database" name →
             subnet_tier_rule s
             = default "app" (tag_value "Tier" (Subnet.Tags s))))
  ∧ (∀ s, get_vpcs c = [] → s ∈ subnet_inventory c →
          Subnet.Tags s = Some [Tag "Tier" "app"; Tag "Name" "db-subnet-1"] →
          subnet_entry s ∈ subnets (generate_html c) !!! "database").
Proof.
  split; [|split].
  - intros t. apply get_subnets_spec.
  - intros s name. unfold subnet_tier_rule. fold name.
    rewrite <- !ci_in_spec.
    destruct (ci_in "public" name), (ci_in "db" name),
      (ci_in "database" name); simpl; intuition congruence.
  - intros s Hv Hin Htags. simpl. rewrite Hv. simpl.
    rewrite lookup_total_alt, get_subnets_spec. simpl.
    apply list_elem_of_fmap_2, list_elem_of_filter. split; [|done].
    unfold subnet_tier_rule, display_name. by rewrite Htags.
Qed.

(** The scenario of C1 on [db_cloud]. *)
Lemma subnet_tier_assignment_witness :
  subnet_entry db_subnet ∈ subnets (generate_html db_cloud) !!! "database".
Proof.
  apply (proj2 (proj2 (subnet_tier_assignment db_cloud None)) db_subnet).
  - reflexivity.
  - vm_compute. left.
  - reflexivity.
Defined.

(** C2, as the source has it. Scope has two states. When no non-default VPC
    with a resolvable name exists (the inventory is empty or unavailable, or
    holds only default and unnamed VPCs), scope is unrestricted: subnets,
    instances, security groups and gateways are not filtered by VPC.
    Otherwise scope is the list of the identifiers of those VPCs. No empty
    restricted set exists: an empty list of identifiers filters nothing
    either. *)
Theorem scope_two_states c :
  let s := generate_html c in
  let named := filter scoping_vpc (vpc_inventory c) in
  (vpc_ids_of s
   = if decide (named = []) then None else Some (Vpc.VpcId <$> named))
  ∧ (get_subnets c (Some []) = get_subnets c None
     ∧ get_instances c (Some []) = get_instances c None
     ∧ get_security_groups c (Some []) = get_security_groups c None
     ∧ get_internet_gateways c (Some []) = get_internet_gateways c None)
  ∧ (named = [] →
     (∀ t, subnets s !! t
           = if decide (t ∈ subnet_tiers) then
               Some (subnet_entry <$>
                       filter (λ x, display_name (Subnet.Tags x) ≠ ""
                                    ∧ subnet_tier_rule x = t)
                         (subnet_inventory c))
             else None)
     ∧ (∀ t, instances s !! t
             = if decide (t ∈ instance_tiers) then
                 Some (instance_entry <$>
                         filter (λ x, instance_tier_rule x = t)
                           (instance_inventory c))
               else None)
     ∧ security_groups s
       = security_group_entry <$>
           filter (λ g, SecurityGroup.GroupName g ≠ Some "default")
             (security_group_inventory c)
     ∧ igws s
       = gateway_entry <$>
           filter (λ g, display_name (Igw.Tags g) ≠ ""
                        ∨ last_attachment_vpc g ≠ "")
             (gateway_inventory c)).
Proof.
  intros s named. split; [|split].
  - subst s named. simpl. unfold scope_of. rewrite get_vpcs_spec.
    destruct (filter scoping_vpc (vpc_inventory c)) as [|v l]; [done|].
    simpl. by rewrite <- list_fmap_compose.
  - done.
  - intros Hnamed. subst s named. simpl.
    rewrite get_vpcs_spec, Hnamed. simpl. repeat split.
    + intros t. rewrite get_subnets_spec. case_decide; [|done].
      do 2 f_equal. apply list_filter_iff. simpl. tauto.
    + intros t. rewrite get_instances_spec. case_decide; [|done].
      do 2 f_equal. apply list_filter_iff. simpl. tauto.
    + rewrite get_security_groups_spec. f_equal.
      apply list_filter_iff. simpl. tauto.
    + rewrite get_internet_gateways_spec. f_equal.
      apply list_filter_iff. simpl. tauto.
Qed.

(** C2 exercised on [unnamed_vpcs_cloud]: the subnet is rendered. *)
Lemma scope_two_states_witness :
  filter scoping_vpc (vpc_inventory unnamed_vpcs_cloud) = []
  ∧ subnets (generate_html unnamed_vpcs_cloud) !! "database"
    = Some [subnet_entry db_subnet].
Proof.
  pose proof (scope_two_states unnamed_vpcs_cloud) as H. cbv zeta in H.
  destruct H as (_ & _ & H).
  assert (filter scoping_vpc (vpc_inventory unnamed_vpcs_cloud) = []) as Hn
    by (vm_compute; reflexivity).
  split; [exact Hn|].
  destruct (H Hn) as (Hs & _). rewrite Hs. vm_compute. reflexivity.
Defined.

(** C2 as stated fails on [unnamed_vpcs_cloud]: its VPC inventory is not
    empty and holds no non-default VPC with a resolvable name, yet scope is
    unrestricted and the subnet of [vpc-x] is rendered. *)
Lemma scope_tri_state_counterexample :
  vpc_inventory unnamed_vpcs_cloud ≠ []
  ∧ Forall (λ v, ¬ scoping_vpc v) (vpc_inventory unnamed_vpcs_cloud)
  ∧ vpc_ids_of (generate_html unnamed_vpcs_cloud) = None
  ∧ subnets (generate_html unnamed_vpcs_cloud) !!! "database"
    = [Subnet.Entry "subnet-1" "10.0.3.0/24" "us-east-1a" "db-subnet-1"]
  ∧ ¬ renders_nothing (generate_html unnamed_vpcs_cloud).
Proof.
  split; [by vm_compute|]. split.
  - vm_compute. repeat constructor.
    + intros [H _]. by apply H.
    + intros [_ H]. by apply H.
  - split; [by vm_compute|]. split; [by vm_compute|].
    intros (H & _). specialize (H "database"). by vm_compute in H.
Qed.



(** C4, as the source has it. The output of [get_internet_gateways] holds, in
    inventory order, the entries of exactly the gateways that pass the scope
    filter (scope is unrestricted, or the owning VPC is one of the
    identifiers in scope) and have a resolvable name or a resolvable owning
    VPC. The owning VPC is the VPC of the last attachment record, so that
    attachments to [vpc-a] then [vpc-b] resolve to [vpc-b]. *)
Theorem gateway_inclusion c vpc_ids :
  get_internet_gateways c vpc_ids
  = gateway_entry <$>
      filter (λ g, in_scope vpc_ids (last_attachment_vpc g)
                   ∧ (display_name (Igw.Tags g) ≠ ""
                      ∨ last_attachment_vpc g ≠ ""))
        (gateway_inventory c)
  ∧ (∀ g, owning_vpc g = last_attachment_vpc g)
  ∧ (∀ atts a tags i,
       owning_vpc (Igw.Raw (Some (atts ++ [a])) tags i)
       = default "" (Igw.VpcId a))
  ∧ (∀ tags i,
       owning_vpc
         (Igw.Raw
            (Some [Igw.Attachment (Some "vpc-a");
                   Igw.Attachment (Some "vpc-b")]) tags i)
       = "vpc-b").
Proof.
  split; [apply get_internet_gateways_spec|].
  split; [apply owning_vpc_spec|]. split; [|done].
  intros atts a tags i. rewrite owning_vpc_spec.
  unfold last_attachment_vpc. simpl. by rewrite last_snoc.
Qed.

(** C4 as stated fails on [gateway_cloud]: [named_gateway] has a resolvable
    name and a resolvable owning VPC, and it is not in the output, because
    its owning VPC is not in scope. The untagged gateway attached to the VPC
    in scope is. *)
Lemma gateway_inclusion_counterexample :
  named_gateway ∈ gateway_inventory gateway_cloud
  ∧ display_name (Igw.Tags named_gateway) = "main-igw"
  ∧ owning_vpc named_gateway = "vpc-2"
  ∧ vpc_ids_of (generate_html gateway_cloud) = Some ["vpc-x"]
  ∧ igws (generate_html gateway_cloud) = [Igw.Entry "igw-2" ""]
  ∧ gateway_entry named_gateway ∉ igws (generate_html gateway_cloud).
Proof.
  split; [vm_compute; left|]. do 4 (split; [by vm_compute|]).
  assert (igws (generate_html gateway_cloud) = [Igw.Entry "igw-2" ""]) as ->
    by (by vm_compute).
  rewrite list_elem_of_singleton. intros [=].
Qed.

(** C5. A subnet whose tier by the rule is none of [public], [app] and
    [database], and an instance whose tier is neither [web] nor [app], is
    filed in no bucket: the buckets are those built from the inventory
    without that record. *)
Theorem unmatched_tier_dropped c c' vpc_ids :
  (∀ l1 s l2,
     subnet_inventory c = l1 ++ s :: l2 → subnet_inventory c' = l1 ++ l2 →
     subnet_tier_rule s ∉ subnet_tiers →
     get_subnets c vpc_ids = get_subnets c' vpc_ids)
  ∧ (∀ l1 x l2,
       instance_inventory c = l1 ++ x :: l2 →
       instance_inventory c' = l1 ++ l2 →
       instance_tier_rule x ∉ instance_tiers →
       get_instances c vpc_ids = get_instances c' vpc_ids).
Proof.
  split.
  - intros l1 s l2 Hc Hc' Hs. apply map_eq. intros t.
    rewrite !get_subnets_spec, Hc, Hc'. case_decide as Ht; [|done].
    do 2 f_equal. apply filter_remove. intros [_ Heq]. by rewrite Heq in Hs.
  - intros l1 x l2 Hc Hc' Hx. apply map_eq. intros t.
    rewrite !get_instances_spec, Hc, Hc'. case_decide as Ht; [|done].
    do 2 f_equal. apply filter_remove. intros [_ Heq]. by rewrite Heq in Hx.
Qed.

(** C5 exercised on a subnet tagged [Tier=internet] and an instance tagged
    [Tier=database]. *)
Lemma unmatched_tier_dropped_witness :
  subnet_tier_rule internet_subnet = "internet"
  ∧ get_subnets (inventory_cloud [] [db_subnet; internet_subnet] []) None
    = get_subnets (inventory_cloud [] [db_subnet] []) None
  ∧ instance_tier_rule database_instance = "database"
  ∧ get_instances
      (inventory_cloud [] [] [database_instance; untagged_instance]) None
    = get_instances (inventory_cloud [] [] [untagged_instance]) None.
Proof.
  pose proof
    (unmatched_tier_dropped
       (inventory_cloud [] [db_subnet; internet_subnet]
          [database_instance; untagged_instance])
       (inventory_cloud [] [db_subnet] [untagged_instance]) None)
    as [Hs Hi].
  split; [reflexivity|]. split.
  - apply (Hs [db_subnet] internet_subnet []); [reflexivity..|].
    apply (bool_decide_unpack _). vm_compute. exact I.
  - split; [reflexivity|].
    apply (Hi [] database_instance [untagged_instance]); [reflexivity..|].
    apply (bool_decide_unpack _). vm_compute. exact I.
Defined.

(** C6. A subnet whose [Name] tag does not resolve (it is missing, or its
    value is empty) is filed in no bucket, whatever its other tags: the
    buckets are those built from the inventory without it. *)
Theorem unnamed_subnet_dropped c c' vpc_ids l1 s l2 :
  subnet_inventory c = l1 ++ s :: l2 → subnet_inventory c' = l1 ++ l2 →
  tag_value "Name" (Subnet.Tags s) = None
  ∨ tag_value "Name" (Subnet.Tags s) = Some "" →
  get_subnets c vpc_ids = get_subnets c' vpc_ids.
Proof.
  intros Hc Hc' Hname. apply map_eq. intros t.
  rewrite !get_subnets_spec, Hc, Hc'. case_decide as Ht; [|done].
  do 2 f_equal. apply filter_remove. intros [[_ Hn] _]. apply Hn.
  unfold display_name. by destruct Hname as [-> | ->].
Qed.

(** C6 exercised on a subnet tagged [Tier=public] with no [Name] tag. *)
Lemma unnamed_subnet_dropped_witness :
  get_subnets (inventory_cloud [] [unnamed_subnet; db_subnet] []) None
  = get_subnets (inventory_cloud [] [db_subnet] []) None.
Proof.
  apply (unnamed_subnet_dropped _ _ None [] unnamed_subnet [db_subnet]).
  - reflexivity.
  - reflexivity.
  - left. reflexivity.
Defined.

(** C7. An instance with no [Name] tag is shown under the placeholder
    [(unnamed)], which is not the empty string, and is classified like any
    other: its tier is its [Tier] tag's value, [web] when there is none, and
    once past the scope filter the loop body files its entry under that
    tier, so that the entry is in the bucket of the tier when the tier is
    [web] or [app]. With no [Tier] tag either, the entry is in the [web]
    bucket. *)
Theorem unnamed_instance_placeholder c vpc_ids x :
  tag_value "Name" (Inst.Tags x) = None →
  Inst.name (instance_entry x) = "(unnamed)"
  ∧ Inst.name (instance_entry x) ≠ ""
  ∧ instance_tier_rule x = default "web" (tag_value "Tier" (Inst.Tags x))
  ∧ (in_scope_opt vpc_ids (Inst.VpcId x) →
     (∀ b, get_instances_body vpc_ids b x
           = append_to b (default "web" (tag_value "Tier" (Inst.Tags x)))
               (instance_entry x))
     ∧ (x ∈ instance_inventory c →
        (instance_tier_rule x ∈ instance_tiers →
         instance_entry x ∈ get_instances c vpc_ids !!! instance_tier_rule x)
        ∧ (tag_value "Tier" (Inst.Tags x) = None →
           instance_entry x ∈ get_instances c vpc_ids !!! "web"))).
Proof.
  intros Hname.
  assert (display_name (Inst.Tags x) = "") as Hd
    by (unfold display_name; by rewrite Hname).
  assert (instance_tier_rule x
          = default "web" (tag_value "Tier" (Inst.Tags x))) as Hrule
    by (unfold instance_tier_rule; by rewrite Hd).
  split; [by simpl; rewrite Hd|]. split; [by simpl; rewrite Hd|].
  split; [done|]. intros Hscope. split.
  - intros b. by rewrite get_instances_body_spec, decide_True, Hrule.
  - intros Hin.
    assert (∀ t, t ∈ instance_tiers → instance_tier_rule x = t →
                 instance_entry x ∈ get_instances c vpc_ids !!! t) as Hfile.
    { intros t Ht Heq. rewrite lookup_total_alt, get_instances_spec.
      rewrite decide_True by done. simpl.
      by apply list_elem_of_fmap_2, list_elem_of_filter. }
    split.
    + intros Ht. by apply Hfile.
    + intros Htier. apply Hfile.
      * unfold instance_tiers. by left.
      * by rewrite Hrule, Htier.
Qed.

(** C7 exercised on an instance with no tag at all. *)
Lemma unnamed_instance_placeholder_witness :
  Inst.name (instance_entry untagged_instance) = "(unnamed)"
  ∧ instance_entry untagged_instance
    ∈ get_instances (inventory_cloud [] [] [untagged_instance]) None
        !!! "web".
Proof.
  destruct (unnamed_instance_placeholder
              (inventory_cloud [] [] [untagged_instance]) None
              untagged_instance)
    as (Hname & _ & _ & Hfiled).
  - reflexivity.
  - split; [exact Hname|].
    destruct (Hfiled I) as [_ Hin]. apply Hin.
    + vm_compute. left.
    + reflexivity.
Defined.

(** C8, as the source has it. The output of [get_security_groups] holds, in
    inventory order, the entries of exactly the groups that pass the scope
    filter and whose name is not the string [default]; a group named
    [Default] is listed. The port list of an entry holds, in rule order, the
    decimal text of the starting port of each inbound rule that carries one
    other than 0; a rule with no starting port, or starting at port 0,
    contributes nothing. *)
Theorem security_group_listing c vpc_ids :
  get_security_groups c vpc_ids
  = security_group_entry <$>
      filter (λ g, in_scope_opt vpc_ids (SecurityGroup.VpcId g)
                   ∧ SecurityGroup.GroupName g ≠ Some "default")
        (security_group_inventory c)
  ∧ (∀ g, SecurityGroup.ports (security_group_entry g)
          = pretty <$>
              filter (λ p : Z, p ≠ 0)
                (omap SecurityGroup.FromPort
                   (default [] (SecurityGroup.IpPermissions g))))
  ∧ (∀ rules,
       Forall (λ r, SecurityGroup.FromPort r ≠ Some 0) rules →
       open_ports rules = explicit_ports rules)
  ∧ (∀ g, g ∈ security_group_inventory c →
          in_scope_opt vpc_ids (SecurityGroup.VpcId g) →
          SecurityGroup.GroupName g = Some "Default" →
          security_group_entry g ∈ get_security_groups c vpc_ids).
Proof.
  split; [apply get_security_groups_spec|]. split; [done|]. split.
  - unfold open_ports, explicit_ports.
    induction 1 as [|[[p|]] rules Hp _ IH]; simpl in *; [done| |done].
    rewrite filter_cons, decide_True by congruence.
    rewrite fmap_cons. f_equal. exact IH.
  - intros g Hin Hscope Hname. rewrite get_security_groups_spec.
    apply list_elem_of_fmap_2, list_elem_of_filter.
    by rewrite Hname.
Qed.

(** C8 exercised on a group named [Default]. *)
Lemma security_group_listing_witness :
  security_group_entry capital_default_group
  ∈ get_security_groups (group_cloud [web_group; capital_default_group]) None.
Proof.
  apply (proj2 (proj2 (proj2 (security_group_listing _ None)))).
  - vm_compute. right. left.
  - exact I.
  - reflexivity.
Defined.

(** C8 as stated fails on [web_group]: its rule from port 0 carries an
    explicit starting port, and the port list of the entry has no ["0"]. *)
Lemma security_group_ports_counterexample :
  explicit_ports (default [] (SecurityGroup.IpPermissions web_group))
  = ["443"; "0"]
  ∧ get_security_groups (group_cloud [web_group]) None
    = [SecurityGroup.Entry "sg-1" "web-sg" ["443"]]
  ∧ SecurityGroup.ports <$> get_security_groups (group_cloud [web_group]) None
    ≠ [explicit_ports (default [] (SecurityGroup.IpPermissions web_group))].
Proof. by vm_compute. Qed.

(** C9. Every entry of the [Vpc] list, and every identifier in scope, comes
    from a VPC of the inventory that is not the default VPC and whose name
    resolves; the default VPC and a VPC whose name does not resolve
    contribute nothing: the list and the scope are those built from the
    inventory without them. *)
Theorem default_and_unnamed_vpcs_excluded c :
  (∀ e, e ∈ vpcs (generate_html c) →
        ∃ v, v ∈ vpc_inventory c ∧ Vpc.IsDefault v ≠ Some true
             ∧ display_name (Vpc.Tags v) ≠ "" ∧ e = vpc_entry v)
  ∧ (∀ ids i, vpc_ids_of (generate_html c) = Some ids → i ∈ ids →
              ∃ v, v ∈ vpc_inventory c ∧ Vpc.IsDefault v ≠ Some true
                   ∧ display_name (Vpc.Tags v) ≠ "" ∧ Vpc.VpcId v = i)
  ∧ (∀ c' l1 v l2,
       vpc_inventory c = l1 ++ v :: l2 → vpc_inventory c' = l1 ++ l2 →
       Vpc.IsDefault v = Some true ∨ display_name (Vpc.Tags v) = "" →
       vpcs (generate_html c) = vpcs (generate_html c')
       ∧ vpc_ids_of (generate_html c) = vpc_ids_of (generate_html c')).
Proof.
  split; [|split].
  - intros e. simpl. rewrite get_vpcs_spec, list_elem_of_fmap.
    intros (v & -> & Hv). apply list_elem_of_filter in Hv as [[Hd Hn] Hv].
    by exists v.
  - intros ids i. simpl. unfold scope_of. rewrite get_vpcs_spec.
    destruct (Py.nonempty _); [|done]. intros [= <-].
    rewrite <- list_fmap_compose, list_elem_of_fmap.
    intros (v & -> & Hv). apply list_elem_of_filter in Hv as [[Hd Hn] Hv].
    by exists v.
  - intros c' l1 v l2 Hc Hc' Hv.
    assert (get_vpcs c = get_vpcs c') as Heq.
    { rewrite !get_vpcs_spec, Hc, Hc'. f_equal. apply filter_remove.
      intros [Hd Hn]. by destruct Hv. }
    simpl. by rewrite Heq.
Qed.

(** C9 exercised on the default VPC. *)
Lemma default_and_unnamed_vpcs_excluded_witness :
  vpcs (generate_html (inventory_cloud [default_vpc; main_vpc] [] []))
  = vpcs (generate_html (inventory_cloud [main_vpc] [] []))
  ∧ vpc_ids_of (generate_html (inventory_cloud [default_vpc; main_vpc] [] []))
    = vpc_ids_of (generate_html (inventory_cloud [main_vpc] [] [])).
Proof.
  apply (proj2 (proj2 (default_and_unnamed_vpcs_excluded
                         (inventory_cloud [default_vpc; main_vpc] [] [])))
           (inventory_cloud [main_vpc] [] []) [] default_vpc [main_vpc]).
  - reflexivity.
  - reflexivity.
  - left. reflexivity.
Defined.

(** C10. When scope is restricted (at least one non-default VPC with a
    resolvable name exists), an instance that carries no [VpcId] is filed in
    no bucket, whatever its tags: the buckets of the snapshot are those
    built from the inventory without it. When scope is unrestricted, the
    same instance is classified like any other and its entry is in the
    bucket of its tier. *)
Theorem vpcless_instance_scope c :
  (∀ c' l1 x l2,
     get_vpcs c ≠ [] → get_vpcs c' = get_vpcs c →
     instance_inventory c = l1 ++ x :: l2 →
     instance_inventory c' = l1 ++ l2 →
     Inst.VpcId x = None →
     instances (generate_html c) = instances (generate_html c'))
  ∧ (∀ x,
       get_vpcs c = [] → x ∈ instance_inventory c → Inst.VpcId x = None →
       instance_tier_rule x ∈ instance_tiers →
       instance_entry x
       ∈ instances (generate_html c) !!! instance_tier_rule x).
Proof.
  split.
  - intros c' l1 x l2 Hv Hv' Hc Hc' Hx. simpl. rewrite Hv'.
    unfold scope_of. destruct (get_vpcs c) as [|e es]; [done|]. simpl.
    apply map_eq. intros t.
    rewrite !get_instances_spec, Hc, Hc'. case_decide as Ht; [|done].
    do 2 f_equal. apply filter_remove. rewrite Hx.
    by intros [(w & [=] & _) _].
  - intros x Hv Hin Hx Ht. simpl. rewrite Hv. simpl.
    rewrite lookup_total_alt, get_instances_spec.
    rewrite decide_True by done. simpl.
    by apply list_elem_of_fmap_2, list_elem_of_filter.
Qed.

(** C10 exercised on a tagged instance with no [VpcId]: dropped when
    [main_vpc] is discovered, filed under [web] when no VPC is. *)
Lemma vpcless_instance_scope_witness :
  instances
    (generate_html
       (inventory_cloud [main_vpc] [] [untagged_instance; terminated_instance]))
  = instances
      (generate_html (inventory_cloud [main_vpc] [] [untagged_instance]))
  ∧ instance_entry terminated_instance
    ∈ instances
        (generate_html
           (inventory_cloud [] [] [untagged_instance; terminated_instance]))
        !!! "web".
Proof.
  split.
  - apply (proj1 (vpcless_instance_scope _) _
             [untagged_instance] terminated_instance []).
    + vm_compute. discriminate.
    + reflexivity.
    + reflexivity.
    + reflexivity.
    + reflexivity.
  - apply (proj2 (vpcless_instance_scope _) terminated_instance).
    + reflexivity.
    + vm_compute. right. left.
    + reflexivity.
    + apply (bool_decide_unpack _). vm_compute. exact I.
Defined.

(** * Further properties of the collectors and of the snapshot *)

Section counting.

Context {X : Type}.

(** Two filters that exclude each other split the filter of their
    disjunction. *)
Lemma length_filter_or (P Q : X → Prop) `{!∀ x, Decision (P x)}
    `{!∀ x, Decision (Q x)} (l : list X) :
  (∀ x, P x → Q x → False) →
  length (filter (λ x, P x ∨ Q x) l)
  = (length (filter P l) + length (filter Q l))%nat.
Proof.
  intros Hex. induction l as [|x l IH]; [done|].
  rewrite !filter_cons.
  destruct (decide (P x)) as [HP|HP], (decide (Q x)) as [HQ|HQ].
  - destruct (Hex x HP HQ).
  - rewrite decide_True by tauto. simpl. by rewrite IH.
  - rewrite decide_True by tauto. simpl. rewrite IH. lia.
  - by rewrite decide_False by tauto.
Qed.

(** The records filed under the keys [ts] are counted once each. *)
Lemma length_filter_tiers (P : X → Prop) `{!∀ x, Decision (P x)}
    (tier : X → string) (ts : list string) (l : list X) :
  NoDup ts →
  length (filter (λ x, P x ∧ tier x ∈ ts) l)
  = sum_list_with (λ t, length (filter (λ x, P x ∧ tier x = t) l)) ts.
Proof.
  assert (∀ (f : string → nat) t ts,
            sum_list_with f (t :: ts) = (f t + sum_list_with f ts)%nat)
    as Hcons by done.
  induction 1 as [|t ts Ht _ IH].
  - induction l as [|x l IHl]; [done|].
    rewrite filter_cons, decide_False; [done|].
    intros [_ Hin]. by apply elem_of_nil in Hin.
  - rewrite Hcons, <- IH, <- length_filter_or.
    + f_equal. apply list_filter_iff. intros x.
      rewrite elem_of_cons. tauto.
    + intros x [_ <-] [_ Hin]. done.
Qed.

End counting.

Section buckets.

Lemma get_subnets_total c vpc_ids t :
  get_subnets c vpc_ids !!! t
  = if decide (t ∈ subnet_tiers) then
      subnet_entry <$>
        filter (λ s, (in_scope vpc_ids (Subnet.VpcId s)
                      ∧ display_name (Subnet.Tags s) ≠ "")
                     ∧ subnet_tier_rule s = t)
          (subnet_inventory c)
    else [].
Proof.
  rewrite lookup_total_alt, get_subnets_spec. by case_decide.
Qed.

Lemma get_instances_total c vpc_ids t :
  get_instances c vpc_ids !!! t
  = if decide (t ∈ instance_tiers) then
      instance_entry <$>
        filter (λ x, in_scope_opt vpc_ids (Inst.VpcId x)
                     ∧ instance_tier_rule x = t)
          (instance_inventory c)
    else [].
Proof.
  rewrite lookup_total_alt, get_instances_spec. by case_decide.
Qed.

Lemma subnet_tiers_NoDup : NoDup subnet_tiers.
Proof. unfold subnet_tiers. apply (bool_decide_unpack _). by vm_compute. Qed.

Lemma instance_tiers_NoDup : NoDup instance_tiers.
Proof. unfold instance_tiers. apply (bool_decide_unpack _). by vm_compute. Qed.

End buckets.

(** X1. The two totals of the snapshot count records, not entries of one
    bucket: [total_subnets] is the number of subnets of the inventory that
    pass the scope, have a name and whose tier is one of the three bucket
    keys, and [total_instances] the number of instances that pass the scope
    and whose tier is [web] or [app]. Each record is counted once, and
    neither total exceeds the size of its inventory. *)
Theorem snapshot_totals c :
  let s := generate_html c in
  total_subnets s
  = length
      (filter (λ x, (in_scope (vpc_ids_of s) (Subnet.VpcId x)
                     ∧ display_name (Subnet.Tags x) ≠ "")
                    ∧ subnet_tier_rule x ∈ subnet_tiers)
         (subnet_inventory c))
  ∧ total_instances s
    = length
        (filter (λ x, in_scope_opt (vpc_ids_of s) (Inst.VpcId x)
                      ∧ instance_tier_rule x ∈ instance_tiers)
           (instance_inventory c))
  ∧ (total_subnets s ≤ length (subnet_inventory c))%nat
  ∧ (total_instances s ≤ length (instance_inventory c))%nat.
Proof.
  intros s.
  assert (total_subnets s
          = length
              (filter (λ x, (in_scope (vpc_ids_of s) (Subnet.VpcId x)
                             ∧ display_name (Subnet.Tags x) ≠ "")
                            ∧ subnet_tier_rule x ∈ subnet_tiers)
                 (subnet_inventory c))) as Hs.
  { rewrite (length_filter_tiers _ subnet_tier_rule _ _ subnet_tiers_NoDup).
    subst s. simpl. rewrite !get_subnets_total.
    rewrite !decide_True by (apply (bool_decide_unpack _); by vm_compute).
    rewrite !length_fmap. lia. }
  assert (total_instances s
          = length
              (filter (λ x, in_scope_opt (vpc_ids_of s) (Inst.VpcId x)
                            ∧ instance_tier_rule x ∈ instance_tiers)
                 (instance_inventory c))) as Hi.
  { rewrite (length_filter_tiers _ instance_tier_rule _ _
               instance_tiers_NoDup).
    subst s. simpl. rewrite !get_instances_total.
    rewrite !decide_True by (apply (bool_decide_unpack _); by vm_compute).
    rewrite !length_fmap. lia. }
  split; [exact Hs|]. split; [exact Hi|].
  rewrite Hs, Hi. split; apply length_filter.
Qed.

(** X2. Whatever the inventory and the scope, the dictionary [get_subnets]
    returns has exactly the keys [public], [app] and [database], and the one
    [get_instances] returns exactly the keys [web] and [app]: the loops
    never add a bucket and never remove one, so that the subscripts of
    [generate_html] always find their key. *)
Theorem bucket_keys_fixed c vpc_ids t :
  (is_Some (get_subnets c vpc_ids !! t) ↔ t ∈ subnet_tiers)
  ∧ (is_Some (get_instances c vpc_ids !! t) ↔ t ∈ instance_tiers).
Proof.
  rewrite get_subnets_spec, get_instances_spec.
  split; case_decide; split; try done; by intros [? ?].
Qed.

Section provenance.

Lemma scope_of_cons e es : scope_of (e :: es) = Some (Vpc.id <$> e :: es).
Proof. done. Qed.

Lemma records_answers_nothing {A} (r : completed (response A)) key :
  answers_nothing r key → records (run_aws_command r) key = [].
Proof.
  intros (out & -> & Hout). destruct out as [| |d]; simpl in *; [|done|].
  - unfold Py.get. by rewrite lookup_empty.
  - unfold Py.get. by destruct Hout as [-> | ->].
Qed.


End provenance.

(** X3. When at least one VPC is listed, everything in the snapshot lives
    in a listed VPC: each subnet entry comes from a subnet whose [VpcId] is
    the identifier of a listed VPC, each instance and security-group entry
    from a record that carries such a [VpcId], and each gateway entry from a
    gateway whose last attachment names such a VPC. *)
Theorem rendered_resources_in_listed_vpcs c :
  let s := generate_html c in
  vpcs s ≠ [] →
  (∀ t e, e ∈ subnets s !!! t →
          ∃ x, x ∈ subnet_inventory c ∧ e = subnet_entry x
               ∧ Subnet.VpcId x ∈ Vpc.id <$> vpcs s)
  ∧ (∀ t e, e ∈ instances s !!! t →
            ∃ x v, x ∈ instance_inventory c ∧ e = instance_entry x
                   ∧ Inst.VpcId x = Some v ∧ v ∈ Vpc.id <$> vpcs s)
  ∧ (∀ e, e ∈ security_groups s →
          ∃ g v, g ∈ security_group_inventory c ∧ e = security_group_entry g
                 ∧ SecurityGroup.VpcId g = Some v ∧ v ∈ Vpc.id <$> vpcs s)
  ∧ (∀ e, e ∈ igws s →
          ∃ g, g ∈ gateway_inventory c ∧ e = gateway_entry g
               ∧ last_attachment_vpc g ∈ Vpc.id <$> vpcs s).
Proof.
  intros s Hv. subst s. simpl in *.
  destruct (get_vpcs c) as [|e0 es]; [done|]. rewrite scope_of_cons.
  repeat split.
  - intros t e. rewrite get_subnets_total. case_decide; [|by intros ?%elem_of_nil].
    rewrite list_elem_of_fmap. intros (x & -> & Hx).
    apply list_elem_of_filter in Hx as [[[Hs _] _] Hx]. by exists x.
  - intros t e. rewrite get_instances_total.
    case_decide; [|by intros ?%elem_of_nil].
    rewrite list_elem_of_fmap. intros (x & -> & Hx).
    apply list_elem_of_filter in Hx as [[(v & Hv' & Hin) _] Hx].
    by exists x, v.
  - intros e. rewrite get_security_groups_spec, list_elem_of_fmap.
    intros (g & -> & Hg).
    apply list_elem_of_filter in Hg as [[(v & Hv' & Hin) _] Hg].
    by exists g, v.
  - intros e. rewrite get_internet_gateways_spec, list_elem_of_fmap.
    intros (g & -> & Hg).
    apply list_elem_of_filter in Hg as [[Hs _] Hg]. by exists g.
Qed.

(** X3 exercised on [db_subnet], whose VPC is the listed [main_vpc]. *)
Lemma rendered_resources_in_listed_vpcs_witness :
  ∃ x, x ∈ subnet_inventory (inventory_cloud [main_vpc] [db_subnet] [])
       ∧ subnet_entry db_subnet = subnet_entry x
       ∧ Subnet.VpcId x
         ∈ Vpc.id <$> vpcs (generate_html
                              (inventory_cloud [main_vpc] [db_subnet] [])).
Proof.
  pose proof (rendered_resources_in_listed_vpcs
                (inventory_cloud [main_vpc] [db_subnet] [])) as H.
  cbv zeta in H. destruct H as (H & _).
  - vm_compute. discriminate.
  - apply (H "database"). vm_compute. left.
Defined.

(** X4. The records are classified one by one and nothing carries over from
    one record to the next: on an inventory that is the concatenation of
    two, each collector returns the concatenation, bucket by bucket, of what
    it returns on the two parts. *)
Theorem collectors_distribute_over_append c c1 c2 vpc_ids :
  (vpc_inventory c = vpc_inventory c1 ++ vpc_inventory c2 →
   get_vpcs c = get_vpcs c1 ++ get_vpcs c2)
  ∧ (subnet_inventory c = subnet_inventory c1 ++ subnet_inventory c2 →
     ∀ t, get_subnets c vpc_ids !!! t
          = get_subnets c1 vpc_ids !!! t ++ get_subnets c2 vpc_ids !!! t)
  ∧ (instance_inventory c = instance_inventory c1 ++ instance_inventory c2 →
     ∀ t, get_instances c vpc_ids !!! t
          = get_instances c1 vpc_ids !!! t ++ get_instances c2 vpc_ids !!! t)
  ∧ (security_group_inventory c
     = security_group_inventory c1 ++ security_group_inventory c2 →
     get_security_groups c vpc_ids
     = get_security_groups c1 vpc_ids ++ get_security_groups c2 vpc_ids)
  ∧ (gateway_inventory c = gateway_inventory c1 ++ gateway_inventory c2 →
     get_internet_gateways c vpc_ids
     = get_internet_gateways c1 vpc_ids ++ get_internet_gateways c2 vpc_ids).
Proof.
  repeat split.
  - intros H. by rewrite !get_vpcs_spec, H, filter_app, fmap_app.
  - intros H t. rewrite !get_subnets_total, H. case_decide; [|done].
    by rewrite filter_app, fmap_app.
  - intros H t. rewrite !get_instances_total, H. case_decide; [|done].
    by rewrite filter_app, fmap_app.
  - intros H. by rewrite !get_security_groups_spec, H, filter_app, fmap_app.
  - intros H. by rewrite !get_internet_gateways_spec, H, filter_app, fmap_app.
Qed.

(** X4 exercised on two subnets and on two security groups. *)
Lemma collectors_distribute_over_append_witness :
  get_subnets (inventory_cloud [] [db_subnet; internet_subnet] []) None
    !!! "database"
  = get_subnets (inventory_cloud [] [db_subnet] []) None !!! "database"
    ++ get_subnets (inventory_cloud [] [internet_subnet] []) None
         !!! "database"
  ∧ get_security_groups (group_cloud [web_group; capital_default_group]) None
    = get_security_groups (group_cloud [web_group]) None
      ++ get_security_groups (group_cloud [capital_default_group]) None.
Proof.
  split.
  - apply (proj1 (proj2 (collectors_distribute_over_append
                           (inventory_cloud [] [db_subnet; internet_subnet] [])
                           (inventory_cloud [] [db_subnet] [])
                           (inventory_cloud [] [internet_subnet] []) None))).
    reflexivity.
  - apply (proj1 (proj2 (proj2 (proj2 (collectors_distribute_over_append
                                         (group_cloud
                                            [web_group; capital_default_group])
                                         (group_cloud [web_group])
                                         (group_cloud [capital_default_group])
                                         None))))).
    reflexivity.
Defined.

(** X5. A describe call that succeeds and holds no record (it prints
    nothing, or a document in which the expected key is missing or bound to
    the empty list) gives the same empty result as a failed call: an empty
    list, or the dictionary of empty buckets. A missing key is not an
    error. *)
Theorem keyless_response_is_empty c vpc_ids :
  (answers_nothing (describe_vpcs c) "Vpcs" → get_vpcs c = [])
  ∧ (answers_nothing (describe_subnets c) "Subnets" →
     get_subnets c vpc_ids = no_subnets)
  ∧ (answers_nothing (describe_instances c) "Reservations" →
     get_instances c vpc_ids = no_instances)
  ∧ (answers_nothing (describe_security_groups c) "SecurityGroups" →
     get_security_groups c vpc_ids = [])
  ∧ (answers_nothing (describe_internet_gateways c) "InternetGateways" →
     get_internet_gateways c vpc_ids = []).
Proof.
  repeat split; intros H%records_answers_nothing.
  - rewrite get_vpcs_spec. unfold vpc_inventory. by rewrite H.
  - rewrite get_subnets_fold. unfold subnet_inventory. by rewrite H.
  - rewrite get_instances_fold.
    unfold instance_inventory, reservation_inventory. by rewrite H.
  - rewrite get_security_groups_spec. unfold security_group_inventory.
    by rewrite H.
  - rewrite get_internet_gateways_spec. unfold gateway_inventory.
    by rewrite H.
Qed.

(** X5 exercised on a document without the [Subnets] key. *)
Lemma keyless_response_is_empty_witness :
  get_subnets keyless_cloud None = no_subnets.
Proof.
  apply (proj1 (proj2 (keyless_response_is_empty keyless_cloud None))).
  exists (Json {[ "NextToken" := [] ]}). split; [reflexivity|].
  left. reflexivity.
Defined.



(** X7. The VPC shown in the footer of the page is the first VPC of the
    inventory that is not the default VPC and has a name, and its identifier
    is the first one in scope; the gateway shown is the first gateway of the
    inventory that passes the filter. When there is none, the placeholder
    entry (identifier [N/A]) stands in, and for the VPC scope is then
    unrestricted. *)
Theorem representative_vpc_and_gateway c :
  let s := generate_html c in
  vpc s
  = default (Vpc.Entry "N/A" "N/A" "No VPC")
      (vpc_entry <$> head (filter scoping_vpc (vpc_inventory c)))
  ∧ igw s
    = default (Igw.Entry "N/A" "No IGW")
        (gateway_entry <$>
           head (filter (λ g, in_scope (vpc_ids_of s) (last_attachment_vpc g)
                              ∧ (display_name (Igw.Tags g) ≠ ""
                                 ∨ last_attachment_vpc g ≠ ""))
                   (gateway_inventory c)))
  ∧ (vpcs s = [] →
     vpc s = Vpc.Entry "N/A" "N/A" "No VPC" ∧ vpc_ids_of s = None)
  ∧ (vpcs s ≠ [] →
     head (vpcs s) = Some (vpc s)
     ∧ ∃ ids, vpc_ids_of s = Some (Vpc.id (vpc s) :: ids)).
Proof.
  intros s. subst s. simpl. split; [|split; [|split]].
  - rewrite get_vpcs_spec. by destruct (filter _ _).
  - rewrite get_internet_gateways_spec. by destruct (filter _ _).
  - by intros ->.
  - destruct (get_vpcs c) as [|e es]; [done|]. intros _. split; [done|].
    by exists (Vpc.id <$> es).
Qed.

(** X7 exercised on an inventory whose first VPC is the default one. *)
Lemma representative_vpc_and_gateway_witness :
  head (vpcs (generate_html (inventory_cloud [default_vpc; main_vpc] [] [])))
  = Some (vpc_entry main_vpc)
  ∧ vpc_ids_of (generate_html (inventory_cloud [default_vpc; main_vpc] [] []))
    = Some ["vpc-x"].
Proof.
  pose proof (representative_vpc_and_gateway
                (inventory_cloud [default_vpc; main_vpc] [] [])) as H.
  cbv zeta in H. destruct H as (Hvpc & _ & _ & H).
  destruct H as (Hhead & ids & Hids); [vm_compute; discriminate|].
  split.
  - rewrite Hhead, Hvpc. reflexivity.
  - reflexivity.
Defined.

(** X8. How the provider groups instances into reservations plays no part:
    [get_instances] depends on the reservations only through the instances
    they hold, in order. A reservation that is empty or has no [Instances]
    key contributes nothing. *)
Theorem reservation_grouping_irrelevant c c' vpc_ids :
  instance_inventory c = instance_inventory c' →
  get_instances c vpc_ids = get_instances c' vpc_ids.
Proof. intros H. by rewrite !get_instances_fold, H. Qed.

(** X8 exercised on one reservation of two instances against two
    reservations of one, with a reservation lacking [Instances] between
    them. *)
Lemma reservation_grouping_irrelevant_witness :
  get_instances one_reservation_cloud None
  = get_instances split_reservations_cloud None.
Proof.
  apply (reservation_grouping_irrelevant one_reservation_cloud
           split_reservations_cloud None).
  reflexivity.
Defined.

(** * Properties of the page fragments *)

Section fragments.

Lemma instance_card_head inst :
  ∃ rest, instance_card inst = String "010"%char rest.
Proof. eexists. reflexivity. Qed.

Lemma subnet_badge_head s :
  ∃ rest, subnet_badge s = String "<"%char (String "d"%char rest).
Proof. eexists. reflexivity. Qed.

Lemma security_group_card_head sg :
  ∃ rest, security_group_card sg = String "<"%char (String "d"%char rest).
Proof. eexists. reflexivity. Qed.

Lemma empty_note_head note :
  ∃ rest, empty_note note = String "<"%char (String "s"%char rest).
Proof. eexists. reflexivity. Qed.

Lemma foldl_append_head {A} (f : A → string) c a l :
  ∃ rest, foldl (λ html x, html +:+ f x) (String c a) l = String c rest.
Proof.
  revert a. induction l as [|x l IH]; intros a; simpl; [by eexists|].
  apply (IH (a +:+ f x)).
Qed.

Lemma instance_cards_head e r :
  ∃ rest, instance_cards (e :: r) = String "010"%char rest.
Proof.
  unfold instance_cards. destruct (instance_card_head e) as [r0 He].
  change (foldl (λ html inst, html +:+ instance_card inst) "" (e :: r))
    with (foldl (λ html inst, html +:+ instance_card inst)
            (instance_card e) r).
  rewrite He. apply foldl_append_head.
Qed.

Lemma str_join_head c1 c2 r1 l :
  ∃ rest, str_join "" (String c1 (String c2 r1) :: l)
          = String c1 (String c2 rest).
Proof. destruct l; simpl; by eexists. Qed.

(** The shown text of a list of cards is the note for an empty list exactly
    when the list is empty, provided every card starts otherwise than the
    note does. *)
Lemma cards_or_note {A} (card : A → string) (l : list A) note :
  (∀ x, ∃ rest, card x = String "<"%char (String "d"%char rest)) →
  length l = 0%nat
  ↔ Py.or_else (str_join "" (card <$> l)) (empty_note note) = empty_note note.
Proof.
  intros Hcard. destruct l as [|x l]; simpl length; [done|].
  split; [done|]. rewrite fmap_cons. destruct (Hcard x) as [r1 ->].
  destruct (str_join_head "<"%char "d"%char r1 (card <$> l)) as [r2 ->].
  destruct (empty_note_head note) as [r3 ->]. unfold Py.or_else. simpl.
  discriminate.
Qed.

Lemma instance_cards_or_note (l : list Inst.entry) note :
  length l = 0%nat
  ↔ Py.or_else (instance_cards l) (empty_note note) = empty_note note.
Proof.
  destruct l as [|e r]; simpl length; [done|]. split; [done|].
  destruct (instance_cards_head e r) as [r1 ->].
  destruct (empty_note_head note) as [r3 ->]. unfold Py.or_else. simpl.
  discriminate.
Qed.

Lemma pretty_N_go_length x s :
  (String.length s ≤ String.length (pretty_N_go x s))%nat.
Proof.
  revert s. induction (N.lt_wf_0 x) as [x _ IH]. intros s.
  destruct (decide (0 < x)%N) as [Hx|Hx].
  - rewrite pretty_N_go_step by done.
    etrans; [|apply IH; by apply N.div_lt]. simpl. lia.
  - assert (x = 0%N) as -> by lia. by rewrite pretty_N_go_0.
Qed.

Lemma pretty_N_nonempty (x : N) : pretty x ≠ "".
Proof.
  unfold pretty, pretty_N. case_decide as Hx; [done|].
  rewrite pretty_N_go_step by lia. intros Heq.
  pose proof (pretty_N_go_length (x `div` 10)
                (String (pretty_N_char (x `mod` 10)) "")) as Hlen.
  rewrite Heq in Hlen. simpl in Hlen. lia.
Qed.

Lemma pretty_Z_nonempty (z : Z) : pretty z ≠ "".
Proof.
  unfold pretty, pretty_Z. destruct z as [|p|p]; [done| |done].
  apply pretty_N_nonempty.
Qed.

Lemma str_join_nonempty sep x l : x ≠ "" → str_join sep (x :: l) ≠ "".
Proof. destruct x; [done|]. by destruct l. Qed.

End fragments.

(** X9. On the page, each of the five lists shows its note for an empty
    list ([No web instances], [No app instances], [No public subnets],
    [No database subnets], [No security groups]) exactly when the count
    shown beside it is 0; otherwise it shows the cards. *)
Theorem empty_notes_match_counts USE_AWS c :
  let f := html_fragments USE_AWS (generate_html c) in
  (Page.web_count f = 0%nat
   ↔ Page.web_instances f = empty_note "No web instances")
  ∧ (Page.app_count f = 0%nat
     ↔ Page.app_instances f = empty_note "No app instances")
  ∧ (Page.public_count f = 0%nat
     ↔ Page.public_subnets f = empty_note "No public subnets")
  ∧ (Page.database_count f = 0%nat
     ↔ Page.database_subnets f = empty_note "No database subnets")
  ∧ (Page.security_group_count f = 0%nat
     ↔ Page.security_group_cards f = empty_note "No security groups").
Proof.
  intros f. subst f. unfold html_fragments. cbn [Page.web_count
    Page.web_instances Page.app_count Page.app_instances Page.public_count
    Page.public_subnets Page.database_count Page.database_subnets
    Page.security_group_count Page.security_group_cards].
  split; [apply instance_cards_or_note|].
  split; [apply instance_cards_or_note|].
  split; [apply cards_or_note, subnet_badge_head|].
  split; [apply cards_or_note, subnet_badge_head|].
  apply cards_or_note, security_group_card_head.
Qed.

(** X10. For every security group [get_security_groups] returns, the ports
    line of its card reads [None] when the group has no rule with a
    non-zero starting port, and is otherwise the non-empty list of its
    ports separated by a comma and a blank. *)
Theorem ports_line_of_listed_groups c vpc_ids e :
  e ∈ get_security_groups c vpc_ids →
  (SecurityGroup.ports e = [] → ports_text e = "None")
  ∧ (SecurityGroup.ports e ≠ [] →
     ports_text e = str_join ", " (SecurityGroup.ports e)
     ∧ ports_text e ≠ "").
Proof.
  rewrite get_security_groups_spec, list_elem_of_fmap.
  intros (g & -> & _). unfold ports_text, security_group_entry, open_ports.
  simpl. destruct (filter _ _) as [|p ps]; [done|].
  split; [done|]. intros _. rewrite fmap_cons.
  assert (str_join ", " (pretty p :: (pretty <$> ps)) ≠ "") as Hne
    by apply str_join_nonempty, pretty_Z_nonempty.
  unfold Py.or_else. by destruct (str_join _ _).
Qed.

(** X10 exercised on [web_group], whose only counted port is 443. *)
Lemma ports_line_of_listed_groups_witness :
  ports_text (security_group_entry web_group) = "443".
Proof.
  destruct (ports_line_of_listed_groups (group_cloud [web_group]) None
              (security_group_entry web_group)) as [_ H].
  - vm_compute. left.
  - destruct H as [-> _]; [vm_compute; discriminate|]. reflexivity.
Defined.

(** X11. Subnets of the [app] tier are counted and not listed: replacing a
    subnet that is filed under [app] by another subnet of the same VPC that
    is filed under [app] too (another name, identifier, CIDR block or zone)
    changes nothing of what the page shows. *)
Theorem app_subnets_counted_not_listed USE_AWS c c' pre s s' post :
  describe_vpcs c' = describe_vpcs c →
  describe_instances c' = describe_instances c →
  describe_security_groups c' = describe_security_groups c →
  describe_internet_gateways c' = describe_internet_gateways c →
  subnet_inventory c = pre ++ s :: post →
  subnet_inventory c' = pre ++ s' :: post →
  Subnet.VpcId s' = Subnet.VpcId s →
  display_name (Subnet.Tags s) ≠ "" → display_name (Subnet.Tags s') ≠ "" →
  subnet_tier_rule s = "app" → subnet_tier_rule s' = "app" →
  html_fragments USE_AWS (generate_html c')
  = html_fragments USE_AWS (generate_html c).
Proof.
  intros Hv Hi Hg Hw Hc Hc' Hid Hn Hn' Ht Ht'.
  assert (get_vpcs c' = get_vpcs c) as Hvpcs
    by (unfold get_vpcs; by rewrite Hv).
  assert (∀ ids, get_instances c' ids = get_instances c ids) as Hinst
    by (intros ids; unfold get_instances; by rewrite Hi).
  assert (∀ ids, get_security_groups c' ids = get_security_groups c ids)
    as Hsgs by (intros ids; unfold get_security_groups; by rewrite Hg).
  assert (∀ ids, get_internet_gateways c' ids = get_internet_gateways c ids)
    as Higws by (intros ids; unfold get_internet_gateways; by rewrite Hw).
  assert (∀ ids t, t ≠ "app" →
            get_subnets c' ids !!! t = get_subnets c ids !!! t) as Hother.
  { intros ids t Hne. rewrite !get_subnets_total, Hc, Hc'.
    case_decide; [|done]. f_equal.
    rewrite !filter_app, !filter_cons, !decide_False; [done|..];
      intros [_ Heq]; congruence. }
  assert (∀ ids, length (get_subnets c' ids !!! "app")
                 = length (get_subnets c ids !!! "app")) as Happ.
  { intros ids. rewrite !get_subnets_total, Hc, Hc'.
    rewrite !decide_True by (apply (bool_decide_unpack _); by vm_compute).
    rewrite !length_fmap, !filter_app, !filter_cons, !length_app, Hid.
    destruct (decide (in_scope ids (Subnet.VpcId s))) as [Hs|Hs].
    - by rewrite !decide_True by done.
    - by rewrite !decide_False by tauto. }
  unfold html_fragments, generate_html. simpl.
  rewrite Hvpcs, !Hinst, Hsgs, Higws, Happ.
  by rewrite !(Hother _ "public"), !(Hother _ "database").
Qed.

(** X11 exercised on two subnets of the [app] tier. *)
Lemma app_subnets_counted_not_listed_witness :
  html_fragments false
    (generate_html (inventory_cloud [main_vpc] [db_subnet; app_subnet_b] []))
  = html_fragments false
      (generate_html (inventory_cloud [main_vpc] [db_subnet; app_subnet_a] [])).
Proof.
  apply (app_subnets_counted_not_listed false
           (inventory_cloud [main_vpc] [db_subnet; app_subnet_a] [])
           (inventory_cloud [main_vpc] [db_subnet; app_subnet_b] [])
           [db_subnet] app_subnet_a app_subnet_b []);
    try reflexivity; vm_compute; discriminate.
Defined.

(** X12. The command line of a query. In LocalStack mode it is [aws
    --endpoint-url http://localhost:4566] followed by what follows [aws] in
    AWS mode, so every query of that mode is addressed to the local
    endpoint. In AWS mode every word of the command is [aws], the service,
    the action, [--output], [json] or one of the caller's extra arguments:
    the command names no endpoint of its own. No extra arguments and an
    empty list of them give the same command. *)
Theorem aws_command_endpoint service action extra_args :
  (∃ rest,
     aws_command false service action extra_args
     = "aws" :: "--endpoint-url" :: "http://localhost:4566" :: rest
     ∧ aws_command true service action extra_args = "aws" :: rest)
  ∧ (∀ w, w ∈ aws_command true service action extra_args →
          w ∈ ["aws"; service; action; "--output"; "json"]
          ∨ w ∈ default [] extra_args)
  ∧ (∀ USE_AWS, aws_command USE_AWS service action None
                = aws_command USE_AWS service action (Some [])).
Proof.
  split; [|split].
  - unfold aws_command. simpl. destruct (Py.nonempty _); by eexists.
  - intros w. unfold aws_command. simpl.
    destruct (Py.nonempty _); rewrite !elem_of_cons; tauto.
  - done.
Qed.

(** X13. Start-up. [main] sets [USE_AWS] to the [--aws] flag and consults
    the check of that mode only. It exits with status 1 exactly when that
    check fails, that is, when the check command could not be run or did
    not exit with status 0; it enters the serving loop, on port 8080 and
    with the browser thread unless [--no-browser] was given, exactly when
    the check passes and the port can be bound. *)
Theorem main_preflight args h :
  let r := main args h in
  let passed :=
    if aws args then check_aws_credentials (caller_identity h)
    else check_localstack (localstack_health h) in
  USE_AWS_set r = aws args
  ∧ (ended r = SysExit 1 ↔ passed = false)
  ∧ (ended r = BindError ↔ passed = true ∧ can_bind h = false)
  ∧ (ended r = Serving 8080 (negb (no_browser args))
     ↔ passed = true ∧ can_bind h = true)
  ∧ (∀ p b, ended r = Serving p b → p = 8080 ∧ b = negb (no_browser args))
  ∧ (aws args = true →
     ∀ x, main args (Host x (caller_identity h) (can_bind h)) = r)
  ∧ (aws args = false →
     ∀ x, main args (Host (localstack_health h) x (can_bind h)) = r)
  ∧ (∀ x : completed unit,
       (check_localstack x = true ↔ ∃ out, x = Exited 0 out)
       ∧ (check_aws_credentials x = true ↔ ∃ out, x = Exited 0 out)).
Proof.
  intros r passed. subst r passed. destruct args as [a nb], h as [ls ci cb].
  assert (∀ x : completed unit,
            check_localstack x = true ↔ ∃ out, x = Exited 0 out) as Hcheck.
  { intros [e|rc out]; simpl.
    - split; [done | by intros [? ?]].
    - rewrite Z.eqb_eq. split; [intros ->; by exists out|].
      by intros [? [= -> _]]. }
  unfold main. cbn [aws no_browser localstack_health caller_identity
    can_bind].
  split; [by destruct a, (check_aws_credentials ci), (check_localstack ls), cb|].
  split; [by destruct a, (check_aws_credentials ci), (check_localstack ls), cb|].
  split.
  { destruct a, (check_aws_credentials ci), (check_localstack ls), cb;
      simpl; split; try done; by intros [? ?]. }
  split.
  { destruct a, (check_aws_credentials ci), (check_localstack ls), cb;
      simpl; split; try done; by intros [? ?]. }
  split.
  { intros p b.
    destruct a, (check_aws_credentials ci), (check_localstack ls), cb;
      simpl; intros [=]; by subst. }
  split; [by intros ->|]. split; [by intros ->|].
  intros x. split; apply Hcheck.
Qed.

(** X13 exercised on a machine where LocalStack answers and AWS credentials
    are missing: LocalStack mode serves, AWS mode exits with status 1. *)
Lemma main_preflight_witness :
  ended (main (Arguments_ false false) localstack_host) = Serving 8080 true
  ∧ ended (main (Arguments_ true false) localstack_host) = SysExit 1.
Proof.
  split.
  - pose proof (main_preflight (Arguments_ false false) localstack_host)
      as H. cbv zeta in H. destruct H as (_ & _ & _ & H & _).
    apply H. split; reflexivity.
  - pose proof (main_preflight (Arguments_ true false) localstack_host)
      as H. cbv zeta in H. destruct H as (_ & H & _).
    apply H. reflexivity.
Defined.

(** X14. Instance tiers. Every bucket of [get_instances] holds, in inventory
    order, the entries of exactly the instances that pass the scope filter
    and whose tier by the rule is the bucket's key; the rule gives [app]
    when the name contains "app" in any case, whatever the [Tier] tag says,
    and otherwise the [Tier] tag's value, [web] when there is none. *)
Theorem instance_tier_assignment c vpc_ids :
  (∀ t, get_instances c vpc_ids !! t
        = if decide (t ∈ instance_tiers) then
            Some (instance_entry <$>
                    filter (λ x, in_scope_opt vpc_ids (Inst.VpcId x)
                                 ∧ instance_tier_rule x = t)
                      (instance_inventory c))
          else None)
  ∧ (∀ x, let name := display_name (Inst.Tags x) in
          (contains_ci "app" name → instance_tier_rule x = "app")
          ∧ (¬ contains_ci "app" name →
             instance_tier_rule x
             = default "web" (tag_value "Tier" (Inst.Tags x))))
  ∧ (∀ x, x ∈ instance_inventory c →
          in_scope_opt vpc_ids (Inst.VpcId x) →
          contains_ci "app" (display_name (Inst.Tags x)) →
          instance_entry x ∈ get_instances c vpc_ids !!! "app").
Proof.
  split; [|split].
  - intros t. apply get_instances_spec.
  - intros x name. unfold instance_tier_rule. fold name.
    rewrite <- ci_in_spec. destruct (ci_in "app" name); intuition congruence.
  - intros x Hin Hscope Hname. rewrite get_instances_total.
    rewrite decide_True by (apply (bool_decide_unpack _); by vm_compute).
    apply list_elem_of_fmap_2, list_elem_of_filter. split; [|done].
    split; [done|]. unfold instance_tier_rule.
    apply ci_in_spec in Hname. by rewrite Hname.
Qed.

(** X14 exercised on an instance named [WebApp-1] and tagged
    [Tier=database]. *)
Lemma instance_tier_assignment_witness :
  instance_entry webapp_instance
  ∈ get_instances (inventory_cloud [] [] [webapp_instance]) None !!! "app".
Proof.
  apply (proj2 (proj2 (instance_tier_assignment
                         (inventory_cloud [] [] [webapp_instance]) None))
           webapp_instance).
  - vm_compute. left.
  - exact I.
  - apply ci_in_spec. reflexivity.
Defined.

(** X15. The [Vpc] list holds, in inventory order and without merging
    duplicates, one entry for each VPC of the inventory that is not the
    default VPC and whose name resolves: no such VPC is left out. The entry
    carries the identifier, the CIDR block and the name. *)
Theorem vpc_list_complete c :
  get_vpcs c = vpc_entry <$> filter scoping_vpc (vpc_inventory c)
  ∧ (∀ v, v ∈ vpc_inventory c → Vpc.IsDefault v ≠ Some true →
          display_name (Vpc.Tags v) ≠ "" →
          Vpc.Entry (Vpc.VpcId v) (Vpc.CidrBlock v) (display_name (Vpc.Tags v))
          ∈ get_vpcs c)
  ∧ (length (get_vpcs c) ≤ length (vpc_inventory c))%nat.
Proof.
  rewrite get_vpcs_spec. split; [done|]. split.
  - intros v Hin Hd Hn.
    by apply (list_elem_of_fmap_2 vpc_entry), list_elem_of_filter.
  - rewrite length_fmap. apply length_filter.
Qed.
